(** * mdl_collector: column consolidation, schema enforcement and harvest loop

    A shallow embedding of
    - [src/orchestrators/fetch_datasets.py] ([process_meta], [process_datasets]),
    - [src/sources/unhcr.py] ([fetch_dataset]),
    - the schema helpers exercised by [tests/test_schema_enforcement.py],
    with the properties the specification states about them. *)

From Stdlib Require Import Ascii String.
From stdpp Require Import base option list strings pretty gmap fin_maps.

Local Open Scope string_scope.
Local Open Scope list_scope.

(** ** Python strings *)

Module PyStr.

(** The line feed, the one character Python's [.] refuses (no DOTALL). *)
Definition LF : ascii := Ascii.ascii_of_nat 10.

(** [s[n:]] *)
Fixpoint drop_chars (n : nat) (s : string) : string :=
  match n, s with
  | 0, _ => s
  | S k, String _ s' => drop_chars k s'
  | S _, EmptyString => EmptyString
  end.

(** [s.startswith(p)] *)
Fixpoint startswith (p s : string) : bool :=
  match p, s with
  | EmptyString, _ => true
  | String a p', String b s' => if Ascii.eqb a b then startswith p' s' else false
  | String _ _, EmptyString => false
  end.

(** [sep.join(parts)] *)
Fixpoint join (sep : string) (parts : list string) : string :=
  match parts with
  | [] => EmptyString
  | [p] => p
  | p :: rest => p +:+ sep +:+ join sep rest
  end.

(** [sub in s] *)
Fixpoint contains (sub s : string) : bool :=
  startswith sub s ||
  match s with
  | EmptyString => false
  | String _ s' => contains sub s'
  end.

End PyStr.

(** ** The fragment of Python's [re] used by the column rewrite

    The patterns of [process_datasets] are built from ordinary characters,
    the wildcard [.] and the alternation bar; nothing else of the regex
    syntax occurs in them. *)

Module Re.
Import PyStr.

Inductive regex : Type :=
| Eps : regex
| Lit : ascii -> regex
| Dot : regex
| Cat : regex -> regex -> regex
| Alt : regex -> regex -> regex.

(** One branch of an alternation: a sequence of atoms. *)
Fixpoint compile_branch (p : string) : regex :=
  match p with
  | EmptyString => Eps
  | String c p' =>
      Cat (if Ascii.eqb c "."%char then Dot else Lit c) (compile_branch p')
  end.

(** A pattern without wildcard: every character stands for itself. *)
Fixpoint compile_literal (p : string) : regex :=
  match p with
  | EmptyString => Eps
  | String c p' => Cat (Lit c) (compile_literal p')
  end.

(** Split a pattern at its top-level bars (there are no groups). *)
Fixpoint split_bar (acc : string -> string) (p : string) : list string :=
  match p with
  | EmptyString => [acc EmptyString]
  | String c p' =>
      if Ascii.eqb c "|"%char
      then acc EmptyString :: split_bar (fun s => s) p'
      else split_bar (fun s => acc (String c s)) p'
  end.

Fixpoint alternation (branches : list regex) : regex :=
  match branches with
  | [] => Eps
  | [r] => r
  | r :: rest => Alt r (alternation rest)
  end.

(** [re.compile(p)] on the fragment. *)
Definition compile (p : string) : regex :=
  alternation (map compile_branch (split_bar (fun s => s) p)).

(** Lengths of all matches of [r] anchored at the start of [s], in the
    order a backtracking matcher tries them: the left branch of a bar
    first.  The head of the list is the match [re] reports. *)
Fixpoint match_lens (r : regex) (s : string) : list nat :=
  match r with
  | Eps => [0]
  | Lit c =>
      match s with
      | String c' _ => if Ascii.eqb c c' then [1] else []
      | EmptyString => []
      end
  | Dot =>
      match s with
      | String c' _ => if Ascii.eqb c' LF then [] else [1]
      | EmptyString => []
      end
  | Cat r1 r2 =>
      n ← match_lens r1 s;
      (fun m => n + m) <$> match_lens r2 (drop_chars n s)
  | Alt r1 r2 => match_lens r1 s ++ match_lens r2 s
  end.

Definition match_len (r : regex) (s : string) : option nat :=
  head (match_lens r s).

(** [pattern.sub(repl, s)]: scan left to right; a match is replaced and
    the scan resumes behind it; an empty match is replaced and the next
    character copied.  [skip] counts the characters of the current match
    that are still to be consumed. *)
Fixpoint sub_scan (r : regex) (repl : string) (skip : nat) (s : string) : string :=
  match skip with
  | S k =>
      match s with
      | EmptyString => EmptyString
      | String _ s' => sub_scan r repl k s'
      end
  | 0 =>
      match match_len r s with
      | Some (S k) =>
          repl +:+ match s with
                   | EmptyString => EmptyString
                   | String _ s' => sub_scan r repl k s'
                   end
      | Some 0 =>
          repl +:+ match s with
                   | EmptyString => EmptyString
                   | String c s' => String c (sub_scan r repl 0 s')
                   end
      | None =>
          match s with
          | EmptyString => EmptyString
          | String c s' => String c (sub_scan r repl 0 s')
          end
      end
  end.

Definition sub (r : regex) (repl s : string) : string := sub_scan r repl 0 s.

End Re.

(** ** JSON values, as [response.json()] and DataFrame cells hold them *)

Module Json.

#[local] Set Warnings "-register-all".

(** A Python [dict] keeps its keys in insertion order: an association
    list, read at the first entry of a key. *)
Inductive json : Type :=
| JNull : json
| JBool : bool -> json
| JNum : Z -> json
| JStr : string -> json
| JArr : list json -> json
| JObj : list (string * json) -> json.

Fixpoint dict_get (d : list (string * json)) (k : string) : option json :=
  match d with
  | [] => None
  | (k', v) :: d' => if String.eqb k k' then Some v else dict_get d' k
  end.

(** [d[k] = v]: an existing key keeps its place, a new one goes last. *)
Fixpoint dict_set (d : list (string * json)) (k : string) (v : json)
  : list (string * json) :=
  match d with
  | [] => [(k, v)]
  | (k', v') :: d' =>
      if String.eqb k k' then (k', v) :: d' else (k', v') :: dict_set d' k v
  end.

(** [pd.notna] on a cell; a missing cell (None / NaN) is [JNull]. *)
Definition notna (v : json) : bool :=
  match v with
  | JNull => false
  | _ => true
  end.

End Json.

(** ** pandas string accessor and DataFrame *)

Module Pandas.
Import PyStr Re Json.

(** [Series.str.replace(pat, repl, regex=...)] on one element.  With
    [regex=False] the pattern is taken literally ([str.replace]). *)
Definition str_replace (pat repl : string) (regex : bool) (s : string) : string :=
  sub (if regex then compile pat else compile_literal pat) repl s.

Record Column : Type := { label : string; values : list json }.

(** Columns in order; labels may repeat, as pandas allows. *)
Record DataFrame : Type := { nrows : nat; cols : list Column }.

Definition columns (df : DataFrame) : list string := map label (cols df).

(** [df.shape] *)
Definition shape (df : DataFrame) : nat * nat := (nrows df, length (cols df)).

(** [df.columns = f(df.columns)] for an element-wise [f] *)
Definition map_columns (f : string -> string) (df : DataFrame) : DataFrame :=
  {| nrows := nrows df;
     cols := map (fun c => {| label := f (label c); values := values c |}) (cols df) |}.

(** [df.dropna(axis=1, how='all', inplace=True)] *)
Definition dropna_all (df : DataFrame) : DataFrame :=
  {| nrows := nrows df;
     cols := List.filter (fun c => existsb notna (values c)) (cols df) |}.

(** [df.drop(name, axis=1, inplace=True)]: every column so labelled goes. *)
Definition drop (name : string) (df : DataFrame) : DataFrame :=
  {| nrows := nrows df;
     cols := List.filter (fun c => negb (String.eqb (label c) name)) (cols df) |}.

End Pandas.

(** ** [src/orchestrators/fetch_datasets.py]: process_datasets *)

Module FetchDatasets.
Import PyStr Re Json Pandas.

(** What the [try] block can raise before the file is written:
    [AttributeError: Can only use .str accessor with string values]. *)
Inductive exn : Type :=
| StrAccessorError : exn.

(** The line the call prints: the one after [to_csv], with the shape and
    the path, or the one of the [except] branch, with the exception. *)
Inductive Message : Type :=
| Flattened : nat * nat -> string -> Message
| ErrorProcessing : exn -> Message.

(** What the call leaves behind: the file written, if any, and the line
    printed. *)
Record Outcome : Type :=
  { to_csv : option (string * DataFrame);
    printed : Message }.

Section ProcessDatasets.

(** What [str.replace] does when [regex] is not passed: [true] up to
    pandas 1.x, [false] from pandas 2.0 on. *)
Variable default_regex : bool.

(** The column index of a frame without columns: the empty object index
    ([true]: [pd.DataFrame(columns=[])], and every empty frame before
    pandas 2.0), which has the [.str] accessor, or the empty RangeIndex
    ([false]: [pd.DataFrame()] and [pd.json_normalize([])] from pandas 2.0
    on), which has not.  The labels of a frame with columns are strings. *)
Variable empty_index_is_object : bool.

Definition patterns_to_remove : list string :=
  ["study_desc."; "doc_desc."; "study_info."; "method."].

(** Lines 50-51 on one column name. *)
Definition rewrite_column (name : string) : string :=
  str_replace "data_collection." "method_" default_regex
    (str_replace (join "|" patterns_to_remove) "" true name).

(** [df.columns.str]: raises on an index that is not of strings. *)
Definition columns_str (df : DataFrame) : exn + list string :=
  match cols df with
  | [] => if empty_index_is_object then inr [] else inl StrAccessorError
  | _ :: _ => inr (columns df)
  end.

(** Lines 50-51 on the frame: the first [.str] raises or both
    assignments go through. *)
Definition rewrite_columns (df : DataFrame) : exn + DataFrame :=
  match columns_str df with
  | inl e => inl e
  | inr _ => inr (map_columns rewrite_column df)
  end.

(** Lines 50-55, the part of the [try] block before the file is
    written. *)
Definition try_block (df : DataFrame) : exn + DataFrame :=
  match rewrite_columns df with
  | inl e => inl e
  | inr df =>
      let df := dropna_all df in
      inr (if existsb (String.eqb "schematype") (columns df)
           then drop "schematype" df else df)
  end.

Definition process_datasets (df : DataFrame) (output_file : string) : Outcome :=
  match try_block df with
  | inr df =>
      {| to_csv := Some (output_file, df);
         printed := Flattened (shape df) output_file |}
  | inl e =>
      {| to_csv := None;
         printed := ErrorProcessing e |}
  end.

(** The frame in the file, when one is written. *)
Definition written (df : DataFrame) (output_file : string) : option DataFrame :=
  snd <$> to_csv (process_datasets df output_file).

End ProcessDatasets.

(** A one-row frame from a flattened record. *)
Definition frame_of_row (row : list (string * json)) : DataFrame :=
  {| nrows := 1;
     cols := map (fun kv => {| label := fst kv; values := [snd kv] |}) row |}.

(** The first row of a frame, as key/value pairs in column order. *)
Definition first_row (df : DataFrame) : list (string * json) :=
  map (fun c => (label c, default JNull (head (values c)))) (cols df).

Definition scenario_row : list (string * json) :=
  [ ("study_desc.version_statement.version", JStr "1.0");
    ("doc_desc.version_statement.version", JStr "1.1");
    ("study_info.notes", JStr "n1");
    ("method.notes", JStr "n2");
    ("data_collection.sampling_procedure", JStr "random") ].

End FetchDatasets.

(** ** [src/sources/unhcr.py]: fetch_dataset *)

Module Unhcr.
Import Json.

(** What a call can raise; all of them derive from [Exception]. *)
Inductive exn : Type :=
| RequestException : string -> exn
| HTTPError : nat -> exn
| JSONDecodeError : exn
| TypeError : exn.

#[export] Instance exn_ret : MRet (sum exn) := fun _ x => inr x.
#[export] Instance exn_bind : MBind (sum exn) := fun _ _ f m =>
  match m with
  | inl e => inl e
  | inr x => f x
  end.

(** An identifier as [pd.read_csv] hands it over: an integer or a string. *)
Inductive Id : Type :=
| IdInt : Z -> Id
| IdStr : string -> Id.

Definition py_str (id : Id) : string :=
  match id with
  | IdInt n => pretty n
  | IdStr s => s
  end.

Definition id_value (id : Id) : json :=
  match id with
  | IdInt n => JNum n
  | IdStr s => JStr s
  end.

(** The part of a [requests.Response] the function looks at: the status
    and the body as [.json()] decodes it ([None]: not JSON). *)
Record Response : Type := { status_code : nat; body : option json }.

(** [DATASET_EXPORT_URL.format(id)] *)
Definition DATASET_EXPORT_URL (id : string) : string :=
  "https://microdata.unhcr.org/index.php/metadata/export/" +:+ id +:+ "/json".

(** [response.raise_for_status()] *)
Definition raise_for_status (r : Response) : exn + unit :=
  if ((400 <=? status_code r) && (status_code r <? 600))%nat
  then inl (HTTPError (status_code r)) else inr tt.

(** [response.json()] *)
Definition response_json (r : Response) : exn + json :=
  match body r with
  | Some v => inr v
  | None => inl JSONDecodeError
  end.

(** [data[k] = v]: only a dict takes a string key. *)
Definition setitem (data : json) (k : string) (v : json) : exn + json :=
  match data with
  | JObj d => inr (JObj (dict_set d k v))
  | _ => inl TypeError
  end.

Section FetchDataset.

(** The network: what [requests.get(url)] answers or raises. *)
Variable requests_get : string -> exn + Response.

Definition fetch_dataset (id : Id) : exn + json :=
  response ← requests_get (DATASET_EXPORT_URL (py_str id));
  _ ← raise_for_status response;
  data ← response_json response;
  data ← setitem data "id" (id_value id);
  mret data.

End FetchDataset.

End Unhcr.

(** ** [src/orchestrators/fetch_datasets.py]: process_meta *)

Module Harvest.
Import Json Pandas.

Section ProcessMeta.

(** The identifiers of the [id] column, and what a fetch may raise
    (anything that [except Exception] catches). *)
Context {Id Exn : Type}.

(** A submitted future: the identifier the [futures] dict keeps for it,
    and what [future.result()] returns or re-raises once it is done. *)
Record Future : Type := { key : Id; result : Exn + json }.

Variable fetch_function : Id -> Exn + json.

(** [pd.json_normalize], a library function the claims do not open. *)
Variable json_normalize : list json -> DataFrame.

(** [{executor.submit(fetch_function, id): id for id in df["id"]}] *)
Definition submit_all (ids : list Id) : list Future :=
  (fun id => {| key := id; result := fetch_function id |}) <$> ids.

(** The loop's variables: [records] and what was printed, one entry
    [(id, e)] per line [An error occurred for ID {id}: {e}]. *)
Record LoopState : Type := { records : list json; stdout : list (Id * Exn) }.

(** One turn of the [for future in as_completed(futures)] loop. *)
Definition loop_body (st : LoopState) (future : Future) : LoopState :=
  match result future with
  | inr data => {| records := records st ++ [data]; stdout := stdout st |}
  | inl e => {| records := records st; stdout := stdout st ++ [(key future, e)] |}
  end.

(** The loop over the futures in the order they complete. *)
Definition harvest (completed : list Future) : LoopState :=
  fold_left loop_body completed {| records := []; stdout := [] |}.

(** [process_meta], given the futures in the order [as_completed] yields
    them: the frame returned and the lines printed. *)
Definition process_meta (completed : list Future) : DataFrame * list (Id * Exn) :=
  let st := harvest completed in
  (json_normalize (records st), stdout st).

(** The payloads of the fetches that returned. *)
Definition fetched (futures : list Future) : list json :=
  omap (fun future => match result future with
                      | inr data => Some data
                      | inl _ => None
                      end) futures.

(** The identifiers whose fetch raised, with what it raised. *)
Definition failed (futures : list Future) : list (Id * Exn) :=
  omap (fun future => match result future with
                      | inr _ => None
                      | inl e => Some (key future, e)
                      end) futures.

End ProcessMeta.

End Harvest.

(** ** [src/schemas/column_mappings.py]: registry, enforcement, concatenation

    The module is imported by [tests/test_schema_enforcement.py]; its text
    is not part of the sources at hand. *)

Module Schemas.
Import PyStr.

(** Modelled from the spec: the scalar of a flattened row (string,
    number, boolean, or null) of the missing schema module; [SNull] is
    the missing-value marker. *)
Inductive Scalar : Type :=
| SNull : Scalar
| SStr : string -> Scalar
| SNum : Z -> Scalar
| SBool : bool -> Scalar.

(** Modelled from the spec: the declared type tags [str], [numeric] and
    [bool] of the missing schema module. *)
Inductive TypeTag : Type := TStr | TNumeric | TBool.

(** Modelled from the spec: a schema of the missing module, an ordered
    mapping from column name to type tag. *)
Definition Schema : Type := list (string * TypeTag).

Definition schema_keys (schema : Schema) : list string := schema.*1.

(** [schema.get(col)]: the tag declared for a column, if any. *)
Fixpoint tag_of (schema : Schema) (col : string) : option TypeTag :=
  match schema with
  | [] => None
  | (c, t) :: rest => if decide (c = col) then Some t else tag_of rest col
  end.

(** Modelled from the spec: a table as the missing [enforce_schema]
    returns it, its columns in order and its rows, each a mapping from
    column name to scalar. *)
Record Table : Type :=
  { tbl_columns : list string;
    tbl_rows : list (gmap string Scalar) }.

(** Modelled from the spec: when a value is of a declared type (the
    check of the missing coercion step); the missing-value marker is of
    every type. *)
Definition has_type (t : TypeTag) (v : Scalar) : bool :=
  match v, t with
  | SNull, _ => true
  | SStr _, TStr => true
  | SNum _, TNumeric => true
  | SBool _, TBool => true
  | _, _ => false
  end.

Section Enforce.

(** The conversion tried on a value that is not of the declared type;
    [None] when there is no safe one.  The specification leaves its
    table open. *)
Variable convert : TypeTag -> Scalar -> option Scalar.

(** Modelled from the spec: the coercion step of [enforce_schema]
    (the function is missing from the sources): each value is coerced
    toward the declared type tag where safely possible, and a value
    that cannot be coerced keeps its original representation. *)
Definition coerce (t : TypeTag) (v : Scalar) : Scalar :=
  if has_type t v then v
  else match convert t v with
       | Some v' => if has_type t v' then v' else v
       | None => v
       end.

(** Modelled from the spec: one cell of an enforced row (from the
    missing [enforce_schema]): a column the row lacks is filled with
    the missing-value marker, a column it has is coerced. *)
Definition enforce_cell (t : TypeTag) (cell : option Scalar) : Scalar :=
  match cell with
  | Some v => coerce t v
  | None => SNull
  end.

(** Modelled from the spec: [enforce_schema] on one row (the function
    is missing from the sources): exactly the schema's columns are
    kept, whatever else the row holds is dropped. *)
Definition enforce_row (schema : Schema) (row : gmap string Scalar)
  : gmap string Scalar :=
  list_to_map ((fun ct => (ct.1, enforce_cell ct.2 (row !! ct.1))) <$> schema).

(** Modelled from the spec: [enforce_schema(rows, schema)], missing from
    the sources: add the declared columns the input lacks, filled with
    the missing-value marker; drop the columns the schema does not
    declare; put the columns in the schema's order; coerce. *)
Definition enforce (rows : list (gmap string Scalar)) (schema : Schema) : Table :=
  {| tbl_columns := schema_keys schema;
     tbl_rows := enforce_row schema <$> rows |}.

End Enforce.

(** [pd.concat([a, b], ignore_index=True)]: the columns of [a], then
    those of [b] not yet seen; the rows of [a], then those of [b], each
    with the missing-value marker where it lacks a column. *)
Definition reindex (cols : list string) (row : gmap string Scalar)
  : gmap string Scalar :=
  list_to_map ((fun c => (c, default SNull (row !! c))) <$> cols).

Definition concat (a b : Table) : Table :=
  let cols := tbl_columns a ++
              List.filter (fun c => negb (bool_decide (c ∈ tbl_columns a)))
                          (tbl_columns b) in
  {| tbl_columns := cols;
     tbl_rows := reindex cols <$> (tbl_rows a ++ tbl_rows b) |}.

(** [tests/test_schema_enforcement.py], line 94: ['.1' in col or '.2' in col] *)
Definition has_suffix_marker (col : string) : bool :=
  contains ".1" col || contains ".2" col.

Definition duplicate_cols (t : Table) : list string :=
  List.filter has_suffix_marker (tbl_columns t).

Inductive SchemaError : Type :=
| UnknownSource : string -> SchemaError.

(** Modelled from the spec: [get_schema_for_source], missing from the
    sources: the schema registered for the source, an unknown-source
    error for any other identifier, no default. *)
Fixpoint schema_for_in (registry : list (string * Schema)) (source_id : string)
  : SchemaError + Schema :=
  match registry with
  | [] => inl (UnknownSource source_id)
  | (name, schema) :: rest =>
      if String.eqb source_id name then inr schema
      else schema_for_in rest source_id
  end.

(** Modelled from the spec: the World Bank schema, missing from the
    sources; the columns are those the specification and the tests
    name, the full table is not known. *)
Definition WORLD_BANK_SCHEMA : Schema :=
  [ ("id", TNumeric);
    ("title", TStr);
    ("study.version_statement.version", TStr);
    ("doc.version_statement.version", TStr) ].

(** Modelled from the spec: the UNHCR schema, missing from the sources;
    the columns are those the tests name. *)
Definition UNHCR_SCHEMA : Schema :=
  [ ("id", TNumeric); ("title", TStr) ].

(** Modelled from the spec: the registered set, [worldbank] and [unhcr]
    (the registry is missing from the sources). *)
Definition REGISTRY : list (string * Schema) :=
  [ ("worldbank", WORLD_BANK_SCHEMA); ("unhcr", UNHCR_SCHEMA) ].

(** Modelled from the spec: [schema_for(source_id)] over the registered
    set (the function is missing from the sources). *)
Definition schema_for (source_id : string) : SchemaError + Schema :=
  schema_for_in REGISTRY source_id.

End Schemas.

(** ** The column rewrite in the words of its description *)

Module RewriteSpec.
Import PyStr Pandas.

(** The four section names whose occurrences are deleted. *)
Definition stems : list string :=
  ["study_desc"; "doc_desc"; "study_info"; "method"].

(** The trailing wildcard takes any single character but the line feed. *)
Definition wildcard (c : ascii) : bool := negb (Ascii.eqb c LF).

(** [stem] followed by one more character starts [s]. *)
Definition stem_occurs (stem s : string) : bool :=
  startswith stem s &&
  match drop_chars (String.length stem) s with
  | String c _ => wildcard c
  | EmptyString => false
  end.

(** The length of the occurrence that starts [s], if one does. *)
Definition occurrence_at (s : string) : option nat :=
  (fun stem => S (String.length stem)) <$>
    List.find (fun stem => stem_occurs stem s) stems.

(** Delete every occurrence, scanning from the left; [skip] characters
    of the occurrence being deleted are still ahead. *)
Fixpoint delete_occurrences (skip : nat) (s : string) : string :=
  match s with
  | EmptyString => EmptyString
  | String c s' =>
      match skip with
      | S k => delete_occurrences k s'
      | 0 =>
          match occurrence_at s with
          | Some n => delete_occurrences (pred n) s'
          | None => String c (delete_occurrences 0 s')
          end
      end
  end.

(** First the deletions, only afterwards the replacement. *)
Definition rewrite_column_spec (default_regex : bool) (name : string) : string :=
  str_replace "data_collection." "method_" default_regex
    (delete_occurrences 0 name).

End RewriteSpec.

(** ** Exceptions beyond those of [requests] *)

Module PyExn.
Import Json.

(** What the functions below can raise: what the HTTP layer and item
    assignment raise ([Unhcr.exn]), and the built-in errors of lookups and
    checks. *)
Inductive exn : Type :=
| Lib : Unhcr.exn -> exn
| KeyError : string -> exn
| ValueError : string -> exn
| AttributeError : exn.

#[export] Instance exn_ret : MRet (sum exn) := fun _ x => inr x.
#[export] Instance exn_bind : MBind (sum exn) := fun _ _ f m =>
  match m with
  | inl e => inl e
  | inr x => f x
  end.

Definition lift {A : Type} (m : Unhcr.exn + A) : exn + A :=
  match m with
  | inl e => inl (Lib e)
  | inr x => inr x
  end.

(** [data[k]] for a string key: a dict answers or raises [KeyError],
    anything else raises [TypeError]. *)
Definition getitem (data : json) (k : string) : exn + json :=
  match data with
  | JObj d =>
      match dict_get d k with
      | Some v => inr v
      | None => inl (KeyError k)
      end
  | _ => inl (Lib Unhcr.TypeError)
  end.

(** [bool(v)] *)
Definition truthy (v : json) : bool :=
  match v with
  | JNull => false
  | JBool b => b
  | JNum n => negb (Z.eqb n 0)
  | JStr s => negb (String.eqb s "")
  | JArr l => match l with [] => false | _ => true end
  | JObj d => match d with [] => false | _ => true end
  end.

End PyExn.

(** ** [src/sources/unhcr.py]: fetch_metadata_list *)

Module UnhcrList.
Import Json Pandas PyExn.

Definition METADATA_LIST_URL : string :=
  "https://microdata.unhcr.org/index.php/api/catalog/search?ps=9999999&sort_by=created&sort_order=desc".

(** The two lines [logging.error] can write, each with the exception it
    formats. *)
Inductive log_line : Type :=
| RequestFailed : exn -> log_line
| ProcessFailed : exn -> log_line.

Section FetchMetadataList.

(** The network. *)
Variable requests_get : string -> Unhcr.exn + Unhcr.Response.

(** [pd.DataFrame(rows)], a library constructor that may refuse its
    argument. *)
Variable pd_DataFrame : json -> exn + DataFrame.

(** Whether the error of [response.json()] derives from
    [RequestException] (requests from 2.27 on) or only from
    [ValueError]. *)
Variable json_error_is_request_exception : bool.

(** The body of the [try]. *)
Definition fetch_metadata_list_body : exn + DataFrame :=
  response ← lift (requests_get METADATA_LIST_URL);
  _ ← lift (Unhcr.raise_for_status response);
  data ← lift (Unhcr.response_json response);
  result ← getitem data "result";
  rows ← getitem result "rows";
  pd_DataFrame rows.

(** [isinstance(e, requests.RequestException)] *)
Definition is_RequestException (e : exn) : bool :=
  match e with
  | Lib (Unhcr.RequestException _) => true
  | Lib (Unhcr.HTTPError _) => true
  | Lib Unhcr.JSONDecodeError => json_error_is_request_exception
  | _ => false
  end.

(** [isinstance(e, (ValueError, KeyError))] *)
Definition is_ValueError_or_KeyError (e : exn) : bool :=
  match e with
  | Lib Unhcr.JSONDecodeError => true
  | KeyError _ => true
  | ValueError _ => true
  | _ => false
  end.

(** The lines logged, and what the call returns or raises. *)
Definition fetch_metadata_list : list log_line * (exn + DataFrame) :=
  match fetch_metadata_list_body with
  | inr df => ([], inr df)
  | inl e =>
      if is_RequestException e then ([RequestFailed e], inl e)
      else if is_ValueError_or_KeyError e then ([ProcessFailed e], inl e)
      else ([], inl e)
  end.

End FetchMetadataList.

End UnhcrList.

(** ** [scripts/fetch_latest_2025.py]: fetch_latest, filter_by_year *)

Module Latest.
Import PyStr Json PyExn.

Definition API_URL : string :=
  "https://microdata.unhcr.org/index.php/api/catalog/latest".

Section FetchLatest.

(** The network: [requests.get(url, params={"limit": limit}, ...)]. *)
Variable requests_get : string -> Z -> Unhcr.exn + Unhcr.Response.

Definition fetch_latest (limit : Z) : exn + list json :=
  resp ← lift (requests_get API_URL limit);
  _ ← lift (Unhcr.raise_for_status resp);
  payload ← lift (Unhcr.response_json resp);
  match payload with
  | JObj d =>
      match dict_get d "result" with
      | Some data =>
          match data with
          | JArr l => inr l
          | _ => inl (ValueError "Unexpected 'result' format; expected a list.")
          end
      | None =>
          inl (ValueError "Unexpected response format; expected dict with 'result'.")
      end
  | _ => inl (ValueError "Unexpected response format; expected dict with 'result'.")
  end.

End FetchLatest.

Section FilterByYear.

(** [str] of a list or a dict, which the function may meet but whose
    text is Python's business. *)
Variable str_container : json -> string.

(** [str(created)] *)
Definition py_str (v : json) : string :=
  match v with
  | JNull => "None"
  | JBool true => "True"
  | JBool false => "False"
  | JNum n => pretty n
  | JStr s => s
  | _ => str_container v
  end.

(** [s.get("created")]: only a dict has [get]. *)
Definition get_created (s : json) : exn + json :=
  match s with
  | JObj d => inr (default JNull (dict_get d "created"))
  | _ => inl AttributeError
  end.

(** The loop, with [keep] as it stands. *)
Fixpoint filter_loop (year : Z) (keep studies : list json) : exn + list json :=
  match studies with
  | [] => inr keep
  | s :: rest =>
      created ← get_created s;
      if negb (truthy created) then filter_loop year keep rest
      else if contains (pretty year) (py_str created)
           then filter_loop year (keep ++ [s]) rest
           else filter_loop year keep rest
  end.

Definition filter_by_year (studies : list json) (year : Z) : exn + list json :=
  filter_loop year [] studies.

(** The test a study passes to be kept. *)
Definition created_in (year : Z) (s : json) : bool :=
  match s with
  | JObj d =>
      let created := default JNull (dict_get d "created") in
      truthy created && contains (pretty year) (py_str created)
  | _ => false
  end.

Definition is_dict (s : json) : bool :=
  match s with
  | JObj _ => true
  | _ => false
  end.

End FilterByYear.

Section Main.

Variable requests_get : string -> Z -> Unhcr.exn + Unhcr.Response.
Variable str_container : json -> string.

(** The parsed command line. *)
Record Args : Type := { limit : Z; year : Z; output : option string }.

(** What a run that reaches [return 0] leaves behind: the file written
    (its path and the list dumped into it) and the numbers printed. *)
Record Report : Type :=
  { path : string;
    dumped : list json;
    printed_fetched : nat;
    printed_kept : nat;
    printed_year : Z }.

Definition main (args : Args) : exn + Report :=
  studies ← fetch_latest requests_get (limit args);
  filtered ← filter_by_year str_container studies (year args);
  let out := match output args with
             | Some p => p
             | None => "data/unhcr/latest_" +:+ pretty (year args) +:+ ".json"
             end in
  mret {| path := out;
          dumped := filtered;
          printed_fetched := length studies;
          printed_kept := length filtered;
          printed_year := year args |}.

End Main.

End Latest.

(** ** [scripts/fetch_country_mapping.py]: fetch_mapping *)

Module CountryMapping.
Import Json Unhcr.

(** An [<input>] tag as the loop reads it: its [value] and [data-title]
    attributes, where present. *)
Record InputTag : Type := { value : option string; data_title : option string }.

(** The part of the response the function looks at. *)
Record HtmlResponse : Type := { html_status : nat; text : string }.

Definition raise_for_status (r : HtmlResponse) : Unhcr.exn + unit :=
  if ((400 <=? html_status r) && (html_status r <? 600))%nat
  then inl (Unhcr.HTTPError (html_status r)) else inr tt.

(** [bool(inp.get(name))] with the value at hand. *)
Definition present (attr : option string) : option string :=
  match attr with
  | Some s => if String.eqb s "" then None else Some s
  | None => None
  end.

(** One turn of the loop over the tags. *)
Definition add_tag (mapping : gmap string string) (inp : InputTag)
  : gmap string string :=
  match present (value inp), present (data_title inp) with
  | Some v, Some t => <[v := t]> mapping
  | _, _ => mapping
  end.

Definition collect (tags : list InputTag) : gmap string string :=
  fold_left add_tag tags ∅.

Section FetchMapping.

(** The network: [requests.get(url, headers=HEADERS, timeout=20)]. *)
Variable requests_get : string -> Unhcr.exn + HtmlResponse.

(** [BeautifulSoup(text, "html.parser").find_all("input",
    attrs={"name": "country[]"})], the library's parser. *)
Variable find_country_inputs : string -> list InputTag.

Definition fetch_mapping (url : string) : Unhcr.exn + gmap string string :=
  resp ← requests_get url;
  _ ← raise_for_status resp;
  mret (collect (find_country_inputs (text resp))).

End FetchMapping.

End CountryMapping.

(** * Properties *)

Import PyStr Re Json Pandas FetchDatasets.

(** ** The regex fragment *)

Section RegexFacts.
Import RewriteSpec.

Lemma match_lens_stem_dot (stem s : string) :
  contains "." stem = false ->
  match_lens (compile_branch (stem +:+ ".")) s =
    if stem_occurs stem s then [S (String.length stem)] else [].
Proof.
  revert s. induction stem as [|a stem IH]; intros s Hdot.
  - change ("" +:+ ".") with ".". unfold stem_occurs, wildcard. cbn.
    destruct s as [|c s]; [done|]. by destruct (Ascii.eqb c LF).
  - cbn in Hdot. apply orb_false_elim in Hdot as [Ha Hrest].
    assert (Hne : Ascii.eqb a "."%char = false).
    { destruct (Ascii.eqb a "."%char) eqn:E; [|done].
      apply Ascii.eqb_eq in E. subst a. done. }
    assert (Hstem : contains "." stem = false).
    { destruct stem; cbn in *; [done|exact Hrest]. }
    change (String a stem +:+ ".") with (String a (stem +:+ ".")).
    cbn [compile_branch]. rewrite Hne.
    cbn [match_lens]. destruct s as [|b s].
    + done.
    + unfold stem_occurs. cbn [startswith String.length drop_chars].
      destruct (Ascii.eqb a b); [|done].
      cbn. rewrite app_nil_r. rewrite (IH s Hstem).
      unfold stem_occurs. by destruct (_ && _).
Qed.

Lemma compile_patterns_to_remove :
  compile (join "|" patterns_to_remove) =
    alternation ((fun stem => compile_branch (stem +:+ ".")) <$> stems).
Proof. reflexivity. Qed.

Lemma match_len_patterns_to_remove (s : string) :
  match_len (compile (join "|" patterns_to_remove)) s = occurrence_at s.
Proof.
  rewrite compile_patterns_to_remove. unfold match_len, occurrence_at, stems.
  cbn [fmap list_fmap alternation match_lens List.find].
  rewrite !match_lens_stem_dot by reflexivity.
  repeat (destruct (stem_occurs _ s); [reflexivity|]). reflexivity.
Qed.

Lemma sub_scan_delete (skip : nat) (s : string) :
  sub_scan (compile (join "|" patterns_to_remove)) "" skip s =
    delete_occurrences skip s.
Proof.
  revert skip. induction s as [|c s IH]; intros skip.
  - destruct skip; cbn [sub_scan delete_occurrences]; [|done].
    by destruct (match_len _ _) as [[|?]|].
  - destruct skip as [|k]; cbn [sub_scan delete_occurrences]; [|apply IH].
    rewrite match_len_patterns_to_remove.
    destruct (occurrence_at (String c s)) as [[|n]|] eqn:E; cbn [pred String.append].
    + unfold occurrence_at in E. by destruct (List.find _ _).
    + apply IH.
    + by rewrite IH.
Qed.

(** An occurrence at the head of a name goes, whatever character other
    than the line feed stands behind the section name. *)
Lemma delete_leading_occurrence (stem : string) (c : ascii) (rest : string) :
  In stem stems -> wildcard c = true ->
  delete_occurrences 0 (stem +:+ String c rest) = delete_occurrences 0 rest.
Proof.
  intros Hin Hc. unfold stems in Hin. cbn [In] in Hin.
  destruct Hin as [<-|[<-|[<-|[<-|[]]]]];
    vm_compute String.append; cbn [delete_occurrences];
    unfold occurrence_at, stems, stem_occurs; cbn; rewrite Hc; reflexivity.
Qed.

End RegexFacts.

(** ** process_datasets *)

Section ProcessDatasetsFacts.
Import RewriteSpec.

Lemma rewrite_columns_inr (b o : bool) (df df' : DataFrame) :
  rewrite_columns b o df = inr df' -> df' = map_columns (rewrite_column b) df.
Proof.
  unfold rewrite_columns. destruct (columns_str o df); [discriminate|].
  by intros [= <-].
Qed.

Lemma rewrite_columns_with_columns (b o : bool) (df : DataFrame) :
  cols df <> [] ->
  rewrite_columns b o df = inr (map_columns (rewrite_column b) df).
Proof.
  intros H. unfold rewrite_columns, columns_str. by destruct (cols df).
Qed.

Lemma drop_guarded (df : DataFrame) :
  cols (if existsb (String.eqb "schematype") (columns df)
        then drop "schematype" df else df) =
    List.filter (fun c => negb (String.eqb (label c) "schematype")) (cols df).
Proof.
  destruct (existsb _ _) eqn:E; [reflexivity|].
  symmetry. apply forallb_filter_id.
  apply forallb_forall. intros c Hc.
  destruct (String.eqb (label c) "schematype") eqn:El; [|reflexivity].
  apply String.eqb_eq in El.
  assert (existsb (String.eqb "schematype") (columns df) = true); [|congruence].
  apply existsb_exists. exists (label c). split.
  - unfold columns. apply in_map. exact Hc.
  - rewrite El. apply String.eqb_refl.
Qed.

Lemma try_block_inr (b o : bool) (df out : DataFrame) :
  try_block b o df = inr out ->
  cols out =
    List.filter (fun c => negb (String.eqb (label c) "schematype"))
      (List.filter (fun c => existsb notna (values c))
         ((fun c => {| label := rewrite_column b (label c); values := values c |})
            <$> cols df))
  /\ nrows out = nrows df.
Proof.
  unfold try_block. destruct (rewrite_columns b o df) as [e|df'] eqn:E; [discriminate|].
  apply rewrite_columns_inr in E. subst df'. intros [= <-]. split.
  - by rewrite drop_guarded.
  - by destruct (existsb _ _).
Qed.

Lemma try_block_with_columns (b o : bool) (df : DataFrame) :
  cols df <> [] -> exists out, try_block b o df = inr out.
Proof.
  intros H. unfold try_block. rewrite rewrite_columns_with_columns by done. eauto.
Qed.

Lemma written_Some (b o : bool) (df out : DataFrame) (path : string) :
  written b o df path = Some out <-> try_block b o df = inr out.
Proof.
  unfold written, process_datasets.
  destruct (try_block b o df) as [e|df']; cbn; split; intros H;
    try discriminate; by injection H as ->.
Qed.

End ProcessDatasetsFacts.

(** C1 (as the code has it).  On the scenario record the rewrite of
    [process_datasets] does not yield the five distinct keys: both version
    columns come out as [version_statement.version], both notes columns as
    [notes], and the sampling procedure as [method_sampling_procedure],
    whichever default [str.replace] has. *)
Theorem scenario_keys_collide
    (default_regex empty_index_is_object : bool) (output_file : string) :
  first_row <$> written default_regex empty_index_is_object
                  (frame_of_row scenario_row) output_file =
    Some [ ("version_statement.version", JStr "1.0");
           ("version_statement.version", JStr "1.1");
           ("notes", JStr "n1");
           ("notes", JStr "n2");
           ("method_sampling_procedure", JStr "random") ].
Proof. destruct default_regex, empty_index_is_object; reflexivity. Qed.

(** C2 (as the code has it).  Two distinct source keys, [study_info.notes]
    and [method.notes], both rewrite to [notes]: the [except] branch is
    not entered, the file is written, and its row holds the key [notes]
    twice, each with its own value. *)
Theorem notes_columns_collide_silently
    (default_regex empty_index_is_object : bool) (output_file : string) :
  let row := [("study_info.notes", JStr "n1"); ("method.notes", JStr "n2")] in
  let outcome := process_datasets default_regex empty_index_is_object
                   (frame_of_row row) output_file in
  printed outcome = Flattened (1, 2) output_file /\
  (columns <$> (snd <$> to_csv outcome)) = Some ["notes"; "notes"] /\
  (first_row <$> (snd <$> to_csv outcome)) =
    Some [("notes", JStr "n1"); ("notes", JStr "n2")] /\
  ~ NoDup ["notes"; "notes"].
Proof.
  cbv zeta. split; [|split; [|split]];
    try (destruct default_regex, empty_index_is_object; reflexivity).
  intros Hnd. apply NoDup_cons_1_1 in Hnd. apply Hnd. left.
Qed.

(** C8.  Whatever the input frame, the table [process_datasets] writes has
    no column whose values are all null and no column labelled
    [schematype]; so two batches with the same columns can be written with
    different ones. *)
Theorem written_has_no_null_column_nor_schematype
    (default_regex empty_index_is_object : bool)
    (df : DataFrame) (output_file : string) :
  (forall out,
     written default_regex empty_index_is_object df output_file = Some out ->
     Forall (fun c => existsb notna (values c) = true /\ label c <> "schematype")
            (cols out))
  /\ exists df1 df2 out1 out2 : DataFrame,
       columns df1 = columns df2 /\
       written default_regex empty_index_is_object df1 output_file = Some out1 /\
       written default_regex empty_index_is_object df2 output_file = Some out2 /\
       columns out1 <> columns out2.
Proof.
  split.
  - intros out Hout. apply written_Some, try_block_inr in Hout as [-> _].
    apply List.Forall_forall. intros c Hc.
    apply filter_In in Hc as [Hc Hl]. apply filter_In in Hc as [_ Hv].
    split; [exact Hv|]. intros E. rewrite E in Hl. discriminate.
  - exists {| nrows := 1; cols := [ {| label := "title"; values := [JStr "a"] |} ] |},
           {| nrows := 1; cols := [ {| label := "title"; values := [JNull] |} ] |}.
    exists {| nrows := 1; cols := [ {| label := "title"; values := [JStr "a"] |} ] |},
           {| nrows := 1; cols := [] |}.
    split; [reflexivity|].
    split; [destruct default_regex, empty_index_is_object; reflexivity|].
    split; [destruct default_regex, empty_index_is_object; reflexivity|].
    cbn. discriminate.
Qed.

(** A frame with a null-only column and a [schematype] column: what is
    written has neither. *)
Lemma written_has_no_null_column_nor_schematype_witness :
  let df := {| nrows := 2;
               cols := [ {| label := "id"; values := [JNum 1; JNum 2] |};
                         {| label := "method.notes"; values := [JNull; JNull] |};
                         {| label := "schematype"; values := [JStr "s"; JStr "s"] |} ] |} in
  let out := {| nrows := 2;
                cols := [ {| label := "id"; values := [JNum 1; JNum 2] |} ] |} in
  written true false df "datasets.csv" = Some out /\
  Forall (fun c => existsb notna (values c) = true /\ label c <> "schematype")
         (cols out).
Proof.
  cbv zeta.
  assert (H : written true false
                {| nrows := 2;
                   cols := [ {| label := "id"; values := [JNum 1; JNum 2] |};
                             {| label := "method.notes"; values := [JNull; JNull] |};
                             {| label := "schematype";
                                values := [JStr "s"; JStr "s"] |} ] |}
                "datasets.csv" =
              Some {| nrows := 2;
                      cols := [ {| label := "id"; values := [JNum 1; JNum 2] |} ] |})
    by reflexivity.
  split; [exact H|].
  exact (proj1 (written_has_no_null_column_nor_schematype true false _ "datasets.csv")
           _ H).
Defined.

(** C9 (counterexample).  A name in which [method] is followed by a line
    feed is left as it is: the wildcard does not take that character. *)
Lemma wildcard_refuses_line_feed :
  rewrite_column true ("method" +:+ String LF "notes") = "method" +:+ String LF "notes" /\
  rewrite_column false ("method" +:+ String LF "notes") = "method" +:+ String LF "notes".
Proof. split; reflexivity. Qed.

(** C9 (amended).  On every column name the rewrite of [process_datasets]
    deletes, at whatever position, each occurrence of [study_desc],
    [doc_desc], [study_info] or [method] followed by one character other
    than a line feed, and only afterwards replaces [data_collection.] by
    [method_]. *)
Theorem rewrite_column_is_unanchored (default_regex : bool) (name : string) :
  rewrite_column default_regex name =
    RewriteSpec.rewrite_column_spec default_regex name
  /\ rewrite_column default_regex "method_x" = "x"
  /\ rewrite_column default_regex "a.study_descXb" = "a.b"
  /\ rewrite_column default_regex "data_collection.x" = "method_x".
Proof.
  split.
  - unfold rewrite_column, RewriteSpec.rewrite_column_spec.
    f_equal. unfold str_replace, sub. apply sub_scan_delete.
  - destruct default_regex; repeat split; reflexivity.
Qed.

(** ** fetch_dataset *)

Section FetchDatasetFacts.
Import Unhcr.

Lemma dict_get_set_eq (d : list (string * json)) (k : string) (v : json) :
  dict_get (dict_set d k v) k = Some v.
Proof.
  induction d as [|[k' v'] d IH]; cbn.
  - by rewrite String.eqb_refl.
  - destruct (String.eqb k k') eqn:E; cbn; rewrite E; [done|exact IH].
Qed.

Lemma dict_get_set_ne (d : list (string * json)) (k k0 : string) (v : json) :
  k0 <> k -> dict_get (dict_set d k v) k0 = dict_get d k0.
Proof.
  intros Hne. induction d as [|[k' v'] d IH]; cbn.
  - destruct (String.eqb k0 k) eqn:E; [|done].
    apply String.eqb_eq in E. contradiction.
  - destruct (String.eqb k k') eqn:E; cbn.
    + apply String.eqb_eq in E. subst k'.
      destruct (String.eqb k0 k) eqn:E0; [|done].
      apply String.eqb_eq in E0. contradiction.
    + by rewrite IH.
Qed.

(** The only way [fetch_dataset] returns: the request went through, the
    status is no error, and the body is a JSON object. *)
Lemma fetch_dataset_returns_inv
    (requests_get : string -> exn + Response) (id : Id) (data : json) :
  fetch_dataset requests_get id = inr data ->
  exists resp d,
    requests_get (DATASET_EXPORT_URL (py_str id)) = inr resp /\
    raise_for_status resp = inr tt /\
    body resp = Some (JObj d) /\
    data = JObj (dict_set d "id" (id_value id)).
Proof.
  unfold fetch_dataset, mbind, exn_bind, mret, exn_ret.
  destruct (requests_get _) as [e|resp]; [discriminate|].
  destruct (raise_for_status resp) as [e|[]] eqn:Hs; [discriminate|].
  unfold response_json. destruct (body resp) as [v|] eqn:Hb; [|discriminate].
  destruct v; cbn; try discriminate.
  intros [= <-]. eauto 10.
Qed.

End FetchDatasetFacts.

(** C10.  When the export answers with a JSON object, [fetch_dataset id]
    returns that object with its [id] key set to the argument, whatever
    [id] the payload carried, and every other key as fetched. *)
Theorem fetch_dataset_overwrites_id
    (requests_get : string -> Unhcr.exn + Unhcr.Response)
    (id : Unhcr.Id) (resp : Unhcr.Response) (d : list (string * json)) :
  requests_get (Unhcr.DATASET_EXPORT_URL (Unhcr.py_str id)) = inr resp ->
  Unhcr.raise_for_status resp = inr tt ->
  Unhcr.body resp = Some (JObj d) ->
  exists d',
    Unhcr.fetch_dataset requests_get id = inr (JObj d') /\
    d' = dict_set d "id" (Unhcr.id_value id) /\
    dict_get d' "id" = Some (Unhcr.id_value id) /\
    forall k, k <> "id" -> dict_get d' k = dict_get d k.
Proof.
  intros Hget Hstatus Hbody. eexists. split; [|split; [reflexivity|split]].
  - unfold Unhcr.fetch_dataset, mbind, Unhcr.exn_bind, mret, Unhcr.exn_ret.
    rewrite Hget, Hstatus. unfold Unhcr.response_json. rewrite Hbody.
    reflexivity.
  - apply dict_get_set_eq.
  - intros k Hk. by apply dict_get_set_ne.
Qed.

Lemma fetch_dataset_overwrites_id_witness :
  let payload := [("id", JStr "remote"); ("title", JStr "t")] in
  let resp := {| Unhcr.status_code := 200; Unhcr.body := Some (JObj payload) |} in
  let requests_get := fun _ : string => inr resp : Unhcr.exn + Unhcr.Response in
  requests_get (Unhcr.DATASET_EXPORT_URL (Unhcr.py_str (Unhcr.IdInt 7))) = inr resp /\
  Unhcr.raise_for_status resp = inr tt /\
  Unhcr.body resp = Some (JObj payload) /\
  exists d',
    Unhcr.fetch_dataset requests_get (Unhcr.IdInt 7) = inr (JObj d') /\
    d' = dict_set payload "id" (JNum 7) /\
    dict_get d' "id" = Some (JNum 7) /\
    forall k, k <> "id" -> dict_get d' k = dict_get payload k.
Proof.
  cbv zeta. split; [reflexivity|]. split; [reflexivity|]. split; [reflexivity|].
  apply (fetch_dataset_overwrites_id _ (Unhcr.IdInt 7)
           {| Unhcr.status_code := 200;
              Unhcr.body := Some (JObj [("id", JStr "remote"); ("title", JStr "t")]) |});
    reflexivity.
Defined.

(** ** process_meta *)

Section ProcessMetaFacts.
Import Harvest.

Context {Id Exn : Type}.

Lemma fold_loop_body (completed : list (@Future Id Exn)) (st : LoopState) :
  fold_left loop_body completed st =
    {| records := records st ++ fetched completed;
       stdout := stdout st ++ failed completed |}.
Proof.
  revert st. induction completed as [|future l IH]; intros st; cbn.
  - rewrite !app_nil_r. by destruct st.
  - rewrite IH. unfold loop_body, fetched, failed. cbn.
    destruct (result future) as [e|data]; cbn; by rewrite <- app_assoc.
Qed.

Lemma harvest_eq (completed : list (@Future Id Exn)) :
  harvest completed =
    {| records := fetched completed; stdout := failed completed |}.
Proof. unfold harvest. by rewrite fold_loop_body. Qed.

Lemma fetched_failed_length (futures : list (@Future Id Exn)) :
  length (fetched futures) + length (failed futures) = length futures.
Proof.
  induction futures as [|future l IH]; [done|]. unfold fetched, failed in *. cbn.
  destruct (result future); cbn; lia.
Qed.

Lemma fetched_submit_all (fetch_function : Id -> Exn + json) (ids : list Id) :
  fetched (submit_all fetch_function ids) =
    omap (fun id => match fetch_function id with
                    | inr data => Some data
                    | inl _ => None
                    end) ids.
Proof.
  induction ids as [|id l IH]; [done|]. unfold fetched, submit_all in *. cbn.
  destruct (fetch_function id); cbn; by rewrite IH.
Qed.

Lemma failed_submit_all (fetch_function : Id -> Exn + json) (ids : list Id) :
  failed (submit_all fetch_function ids) =
    omap (fun id => match fetch_function id with
                    | inr _ => None
                    | inl e => Some (id, e)
                    end) ids.
Proof.
  induction ids as [|id l IH]; [done|]. unfold failed, submit_all in *. cbn.
  destruct (fetch_function id); cbn; by rewrite IH.
Qed.

End ProcessMetaFacts.

(** C7.  Whatever order the fetches complete in, no failure stops the
    loop: every fetch that raises leaves one printed line with its
    identifier, every fetch that returns leaves its record, and the batch
    handed to [json_normalize] holds exactly the fetched records. *)
Theorem process_meta_survives_failures {Id Exn : Type}
    (fetch_function : Id -> Exn + json)
    (json_normalize : list json -> DataFrame)
    (ids : list Id) (completed : list (@Harvest.Future Id Exn)) :
  completed ≡ₚ Harvest.submit_all fetch_function ids ->
  let st := Harvest.harvest completed in
  Harvest.process_meta json_normalize completed =
    (json_normalize (Harvest.records st), Harvest.stdout st) /\
  Harvest.records st = Harvest.fetched completed /\
  Harvest.stdout st = Harvest.failed completed /\
  Harvest.records st ≡ₚ
    omap (fun id => match fetch_function id with
                    | inr data => Some data
                    | inl _ => None
                    end) ids /\
  Harvest.stdout st ≡ₚ
    omap (fun id => match fetch_function id with
                    | inr _ => None
                    | inl e => Some (id, e)
                    end) ids /\
  length (Harvest.records st) + length (Harvest.stdout st) = length ids.
Proof.
  intros Hperm st. subst st. rewrite harvest_eq. cbn [Harvest.records Harvest.stdout].
  split; [|split; [reflexivity|split; [reflexivity|split; [|split]]]].
  - unfold Harvest.process_meta. by rewrite harvest_eq.
  - rewrite <- fetched_submit_all. unfold Harvest.fetched. by rewrite Hperm.
  - rewrite <- failed_submit_all. unfold Harvest.failed. by rewrite Hperm.
  - rewrite fetched_failed_length, Hperm. unfold Harvest.submit_all.
    apply length_fmap.
Qed.

(** ** Schema enforcement *)

Section EnforceFacts.
Import Schemas.

Lemma tag_of_None (schema : Schema) (c : string) :
  tag_of schema c = None <-> c ∉ schema_keys schema.
Proof.
  unfold schema_keys. induction schema as [|[c' t] s IH]; cbn.
  - split; [intros _; apply not_elem_of_nil|done].
  - rewrite not_elem_of_cons. case_decide as E.
    + split; [done|]. intros [Hne _]. by subst.
    + rewrite IH. split; [intros; split; [congruence|done]|tauto].
Qed.

Lemma tag_of_is_Some (schema : Schema) (c : string) :
  is_Some (tag_of schema c) <-> c ∈ schema_keys schema.
Proof.
  rewrite <- not_eq_None_Some, tag_of_None.
  split; [apply dec_stable|tauto].
Qed.

Variable convert : TypeTag -> Scalar -> option Scalar.

Lemma coerce_typed (t : TypeTag) (v : Scalar) :
  has_type t v = true -> coerce convert t v = v.
Proof. intros H. unfold coerce. by rewrite H. Qed.

Lemma coerce_kept_or_typed (t : TypeTag) (v : Scalar) :
  coerce convert t v = v \/ has_type t (coerce convert t v) = true.
Proof.
  unfold coerce. destruct (has_type t v) eqn:Hv; [by left|].
  destruct (convert t v) as [v'|]; [|by left].
  destruct (has_type t v') eqn:Hv'; [by right|by left].
Qed.

Lemma coerce_idempotent (t : TypeTag) (v : Scalar) :
  coerce convert t (coerce convert t v) = coerce convert t v.
Proof.
  destruct (coerce_kept_or_typed t v) as [H|H].
  - congruence.
  - by apply coerce_typed.
Qed.

Lemma enforce_cell_idempotent (t : TypeTag) (cell : option Scalar) :
  enforce_cell convert t (Some (enforce_cell convert t cell)) =
    enforce_cell convert t cell.
Proof. destruct cell as [v|]; cbn; [apply coerce_idempotent|done]. Qed.

Lemma lookup_enforce_row (schema : Schema) (row : gmap string Scalar) (c : string) :
  enforce_row convert schema row !! c =
    (fun t => enforce_cell convert t (row !! c)) <$> tag_of schema c.
Proof.
  unfold enforce_row. induction schema as [|[c' t] s IH]; cbn.
  - apply lookup_empty.
  - rewrite lookup_insert. case_decide as E; [by subst|exact IH].
Qed.

Lemma enforce_row_idempotent (schema : Schema) (row : gmap string Scalar) :
  enforce_row convert schema (enforce_row convert schema row) =
    enforce_row convert schema row.
Proof.
  apply map_eq. intros c. rewrite !lookup_enforce_row.
  destruct (tag_of schema c) as [t|]; cbn; [|done].
  f_equal. apply (enforce_cell_idempotent t (row !! c)).
Qed.

Lemma dom_enforce_row (schema : Schema) (row : gmap string Scalar) :
  dom (enforce_row convert schema row) = list_to_set (schema_keys schema).
Proof.
  apply set_eq. intros c.
  rewrite elem_of_dom, lookup_enforce_row, fmap_is_Some, tag_of_is_Some.
  by rewrite elem_of_list_to_set.
Qed.

Lemma lookup_reindex (cols : list string) (row : gmap string Scalar) (c : string) :
  reindex cols row !! c =
    if decide (c ∈ cols) then Some (default SNull (row !! c)) else None.
Proof.
  unfold reindex. induction cols as [|c' l IH]; cbn.
  - rewrite lookup_empty. by rewrite decide_False by apply not_elem_of_nil.
  - rewrite lookup_insert. destruct (decide (c' = c)) as [->|E].
    + by rewrite decide_True by apply list_elem_of_here.
    + rewrite IH. destruct (decide (c ∈ l)) as [Hin|Hnin].
      * by rewrite decide_True by (by apply list_elem_of_further).
      * rewrite decide_False; [done|]. rewrite not_elem_of_cons. split; [congruence|done].
Qed.

Lemma reindex_enforce_row (schema : Schema) (row : gmap string Scalar) :
  reindex (schema_keys schema) (enforce_row convert schema row) =
    enforce_row convert schema row.
Proof.
  apply map_eq. intros c. rewrite lookup_reindex, lookup_enforce_row.
  case_decide as Hin.
  - apply tag_of_is_Some in Hin as [t ->]. reflexivity.
  - apply tag_of_None in Hin. by rewrite Hin.
Qed.

Lemma filter_seen (l : list string) :
  List.filter (fun c => negb (bool_decide (c ∈ l))) l = [].
Proof.
  assert (H : forall l', Forall (fun c => c ∈ l) l' ->
              List.filter (fun c => negb (bool_decide (c ∈ l))) l' = []).
  { induction l' as [|c l' IH]; intros HF; [done|].
    apply Forall_cons in HF as [Hc HF]. cbn.
    rewrite bool_decide_eq_true_2 by done. cbn. by apply IH. }
  apply H. by apply Forall_forall.
Qed.

Lemma concat_enforce (a b : list (gmap string Scalar)) (schema : Schema) :
  concat (enforce convert a schema) (enforce convert b schema) =
    enforce convert (a ++ b) schema.
Proof.
  unfold concat, enforce. cbn [tbl_columns tbl_rows].
  rewrite filter_seen, app_nil_r. f_equal.
  rewrite <- fmap_app, <- list_fmap_compose.
  apply list_fmap_ext. intros _ row _. cbn. apply reindex_enforce_row.
Qed.

End EnforceFacts.

(** C3.  Whatever columns the input rows have, [enforce] returns a table
    whose columns are exactly the schema's keys, row for row: a declared
    column absent from the input is there, filled with the missing-value
    marker in every row, and a column the schema does not declare is
    gone. *)
Theorem enforce_columns_are_schema_keys
    (convert : Schemas.TypeTag -> Schemas.Scalar -> option Schemas.Scalar)
    (rows : list (gmap string Schemas.Scalar)) (schema : Schemas.Schema) :
  let t := Schemas.enforce convert rows schema in
  Schemas.tbl_columns t = Schemas.schema_keys schema
  /\ (list_to_set (Schemas.tbl_columns t) : gset string) =
       list_to_set (Schemas.schema_keys schema)
  /\ length (Schemas.tbl_rows t) = length rows
  /\ Forall (fun r => dom r = list_to_set (Schemas.schema_keys schema))
            (Schemas.tbl_rows t)
  /\ (forall c, (c ∈ Schemas.schema_keys schema) ->
        Forall (fun r => r !! c = None) rows ->
        Forall (fun r => r !! c = Some Schemas.SNull) (Schemas.tbl_rows t))
  /\ (forall c, (c ∉ Schemas.schema_keys schema) ->
        (c ∉ Schemas.tbl_columns t) /\
        Forall (fun r => r !! c = None) (Schemas.tbl_rows t)).
Proof.
  cbv zeta. unfold Schemas.enforce. cbn [Schemas.tbl_columns Schemas.tbl_rows].
  split; [reflexivity|]. split; [reflexivity|]. split; [apply length_fmap|].
  split; [|split].
  - apply Forall_fmap, Forall_forall. intros r _. apply dom_enforce_row.
  - intros c Hc Habs. apply Forall_fmap. eapply Forall_impl; [exact Habs|].
    intros r Hr. cbn. rewrite lookup_enforce_row, Hr.
    apply tag_of_is_Some in Hc as [t ->]. reflexivity.
  - intros c Hc. split; [exact Hc|].
    apply Forall_fmap, Forall_forall. intros r _. cbn.
    rewrite lookup_enforce_row. apply tag_of_None in Hc. by rewrite Hc.
Qed.

(** The table of [test_schema_enforcement]: [abstract] is added and null,
    [extra_column] dropped. *)
Lemma enforce_columns_are_schema_keys_witness :
  let schema := [("id", Schemas.TNumeric); ("title", Schemas.TStr);
                 ("abstract", Schemas.TStr)] in
  let rows : list (gmap string Schemas.Scalar) :=
    [ {[ "id" := Schemas.SNum 1; "title" := Schemas.SStr "A";
         "extra_column" := Schemas.SStr "X" ]};
      {[ "id" := Schemas.SNum 2; "title" := Schemas.SStr "B";
         "extra_column" := Schemas.SStr "Y" ]} ] in
  let t := Schemas.enforce (fun _ _ => None) rows schema in
  Schemas.tbl_columns t = ["id"; "title"; "abstract"]
  /\ Forall (fun r => r !! "abstract" = Some Schemas.SNull) (Schemas.tbl_rows t)
  /\ ("extra_column" ∉ Schemas.tbl_columns t)
  /\ Forall (fun r => r !! "extra_column" = None) (Schemas.tbl_rows t).
Proof.
  cbv zeta.
  pose proof (enforce_columns_are_schema_keys (fun _ _ => None)
    [ {[ "id" := Schemas.SNum 1; "title" := Schemas.SStr "A";
         "extra_column" := Schemas.SStr "X" ]};
      {[ "id" := Schemas.SNum 2; "title" := Schemas.SStr "B";
         "extra_column" := Schemas.SStr "Y" ]} ]
    [("id", Schemas.TNumeric); ("title", Schemas.TStr); ("abstract", Schemas.TStr)])
    as (Hcols & _ & _ & _ & Hadd & Hdrop).
  split; [exact Hcols|]. split.
  - apply Hadd.
    + do 2 apply list_elem_of_further. apply list_elem_of_here.
    + repeat constructor.
  - apply Hdrop. apply (bool_decide_unpack _). reflexivity.
Defined.

(** C5.  Enforcing an enforced table against the same schema changes
    nothing. *)
Theorem enforce_idempotent
    (convert : Schemas.TypeTag -> Schemas.Scalar -> option Schemas.Scalar)
    (rows : list (gmap string Schemas.Scalar)) (schema : Schemas.Schema) :
  Schemas.enforce convert
    (Schemas.tbl_rows (Schemas.enforce convert rows schema)) schema =
  Schemas.enforce convert rows schema.
Proof.
  unfold Schemas.enforce. cbn [Schemas.tbl_rows]. f_equal.
  rewrite <- list_fmap_compose. apply list_fmap_ext.
  intros _ row _. cbn. apply enforce_row_idempotent.
Qed.

(** C4 (counterexample).  Against a schema that itself declares the
    columns [wave] and [wave.1], two enforced batches concatenate to a
    table with the column [wave.1], whose name carries the marker. *)
Lemma concat_keeps_declared_marker :
  let schema := [("id", Schemas.TNumeric); ("wave", Schemas.TStr);
                 ("wave.1", Schemas.TStr)] in
  let a := Schemas.enforce (fun _ _ => None) [ {[ "id" := Schemas.SNum 1 ]} ] schema in
  let b := Schemas.enforce (fun _ _ => None) [ {[ "id" := Schemas.SNum 2 ]} ] schema in
  Schemas.tbl_columns (Schemas.concat a b) = ["id"; "wave"; "wave.1"] /\
  Schemas.duplicate_cols (Schemas.concat a b) = ["wave.1"].
Proof. split; reflexivity. Qed.

(** C4 (amended).  Two batches enforced against the same schema
    concatenate to a table whose columns are exactly the schema's, so the
    only columns with a [.1]/[.2] marker in their name are those the
    schema itself declares (none for the World Bank schema), and whose
    row count is the sum of the two. *)
Theorem concat_enforced_keeps_schema_columns
    (convert : Schemas.TypeTag -> Schemas.Scalar -> option Schemas.Scalar)
    (a b : list (gmap string Schemas.Scalar)) (schema : Schemas.Schema) :
  let ta := Schemas.enforce convert a schema in
  let tb := Schemas.enforce convert b schema in
  let t := Schemas.concat ta tb in
  Schemas.tbl_columns t = Schemas.schema_keys schema
  /\ Schemas.duplicate_cols t =
       List.filter Schemas.has_suffix_marker (Schemas.schema_keys schema)
  /\ length (Schemas.tbl_rows t) =
       length (Schemas.tbl_rows ta) + length (Schemas.tbl_rows tb)
  /\ Schemas.tbl_rows t = Schemas.tbl_rows ta ++ Schemas.tbl_rows tb
  /\ Schemas.duplicate_cols
       (Schemas.concat (Schemas.enforce convert a Schemas.WORLD_BANK_SCHEMA)
                       (Schemas.enforce convert b Schemas.WORLD_BANK_SCHEMA)) = [].
Proof.
  cbv zeta. rewrite !concat_enforce. unfold Schemas.duplicate_cols, Schemas.enforce.
  cbn [Schemas.tbl_columns Schemas.tbl_rows].
  split; [reflexivity|]. split; [reflexivity|]. split; [|split].
  - by rewrite !length_fmap, length_app.
  - apply fmap_app.
  - reflexivity.
Qed.

(** C6.  [schema_for] answers with the registered schema for a registered
    source and with an unknown-source error for any other identifier;
    the World Bank schema holds the two version columns as distinct keys,
    and [invalid-source] is refused. *)
Theorem schema_for_registered_or_unknown
    (registry : list (string * Schemas.Schema)) (source_id : string) :
  match Schemas.schema_for_in registry source_id with
  | inr schema => (source_id, schema) ∈ registry
  | inl e => e = Schemas.UnknownSource source_id /\ source_id ∉ registry.*1
  end
  /\ Schemas.schema_for source_id =
       (if String.eqb source_id "worldbank" then inr Schemas.WORLD_BANK_SCHEMA
        else if String.eqb source_id "unhcr" then inr Schemas.UNHCR_SCHEMA
        else inl (Schemas.UnknownSource source_id))
  /\ (exists schema,
        Schemas.schema_for "worldbank" = inr schema /\
        "study.version_statement.version" ∈ Schemas.schema_keys schema /\
        "doc.version_statement.version" ∈ Schemas.schema_keys schema /\
        "study.version_statement.version" <> "doc.version_statement.version" /\
        NoDup (Schemas.schema_keys schema))
  /\ Schemas.schema_for "invalid-source" =
       inl (Schemas.UnknownSource "invalid-source").
Proof.
  split; [|split; [reflexivity|split; [|reflexivity]]].
  - induction registry as [|[name schema] rest IH]; cbn.
    + split; [reflexivity|apply not_elem_of_nil].
    + destruct (String.eqb source_id name) eqn:E.
      * apply String.eqb_eq in E. subst. apply list_elem_of_here.
      * apply String.eqb_neq in E.
        destruct (Schemas.schema_for_in rest source_id) as [e|s].
        -- destruct IH as [-> Hnot]. split; [reflexivity|].
           rewrite not_elem_of_cons. done.
        -- by apply list_elem_of_further.
  - exists Schemas.WORLD_BANK_SCHEMA. split; [reflexivity|].
    split; [do 2 apply list_elem_of_further; apply list_elem_of_here|].
    split; [do 3 apply list_elem_of_further; apply list_elem_of_here|].
    split; [discriminate|]. apply (bool_decide_unpack _). reflexivity.
Qed.

(** Three identifiers, the second of which cannot be fetched, completing
    last-first. *)
Lemma process_meta_survives_failures_witness :
  let fetch := fun id : nat =>
    if Nat.eqb id 2 then inl "404 Client Error"
    else inr (JObj [("id", JNum (Z.of_nat id))]) : string + json in
  let completed := Harvest.submit_all fetch [3; 2; 1] in
  completed ≡ₚ Harvest.submit_all fetch [1; 2; 3] /\
  Harvest.records (Harvest.harvest completed) =
    [JObj [("id", JNum 3)]; JObj [("id", JNum 1)]] /\
  Harvest.stdout (Harvest.harvest completed) = [(2, "404 Client Error")].
Proof.
  cbv zeta.
  set (fetch := fun id : nat => if Nat.eqb id 2 then _ else _).
  assert (Hperm : Harvest.submit_all fetch [3; 2; 1]
                    ≡ₚ Harvest.submit_all fetch [1; 2; 3]).
  { unfold Harvest.submit_all. cbn [fmap list_fmap].
    etrans; [apply perm_swap|]. etrans; [apply perm_skip, perm_swap|].
    apply perm_swap. }
  split; [exact Hperm|].
  destruct (process_meta_survives_failures fetch
              (fun _ => {| nrows := 0; cols := [] |}) _ _ Hperm)
    as (_ & Hrec & Hout & _).
  split; [rewrite Hrec|rewrite Hout]; reflexivity.
Defined.

(** * Further properties of the code *)

(** ** process_datasets: what the rewrite leaves alone and what it merges *)

Section RewriteFacts.
Import RewriteSpec.

Lemma startswith_contains (p s : string) :
  startswith p s = true -> contains p s = true.
Proof. intros H. destruct s; cbn; by rewrite H. Qed.

Lemma contains_tail (p : string) (c : ascii) (s : string) :
  contains p (String c s) = false -> contains p s = false.
Proof. cbn [contains]. intros H. by apply orb_false_elim in H as [_ H]. Qed.

Lemma startswith_app_l (p q s : string) :
  startswith (p +:+ q) s = true -> startswith p s = true.
Proof.
  revert s. induction p as [|a p IH]; intros s; [done|].
  change (String a p +:+ q) with (String a (p +:+ q)).
  destruct s as [|b s]; cbn; [done|]. destruct (Ascii.eqb a b); [apply IH|done].
Qed.

Lemma match_lens_literal (p s : string) :
  match_lens (compile_literal p) s =
    if startswith p s then [String.length p] else [].
Proof.
  revert s. induction p as [|a p IH]; intros s; cbn [compile_literal match_lens].
  - by destruct s.
  - destruct s as [|b s]; [done|]. cbn [startswith String.length].
    destruct (Ascii.eqb a b); [|done].
    cbn. rewrite app_nil_r, IH. by destruct (startswith p s).
Qed.

(** Where the pattern starts nowhere, [sub] copies the string. *)
Lemma sub_scan_no_occurrence (r : regex) (repl p s : string) :
  (forall t, startswith p t = false -> match_len r t = None) ->
  contains p s = false ->
  sub_scan r repl 0 s = s.
Proof.
  intros Hr. induction s as [|c s IH]; intros Hs.
  - cbn [sub_scan]. rewrite Hr; [done|]. cbn in Hs. by apply orb_false_elim in Hs as [Hs _].
  - cbn [sub_scan]. rewrite Hr.
    + f_equal. apply IH. by apply contains_tail in Hs.
    + cbn [contains] in Hs. by apply orb_false_elim in Hs as [Hs _].
Qed.

Lemma occurrence_at_None (s : string) :
  Forall (fun stem => startswith stem s = false) stems -> occurrence_at s = None.
Proof.
  unfold stems. intros H. unfold occurrence_at, stems, stem_occurs. cbn [List.find].
  repeat (apply Forall_cons in H as [-> H]). reflexivity.
Qed.

Lemma delete_occurrences_plain (s : string) :
  Forall (fun stem => contains stem s = false) stems ->
  delete_occurrences 0 s = s.
Proof.
  induction s as [|c s IH]; intros H; [done|]. cbn [delete_occurrences].
  rewrite occurrence_at_None.
  - f_equal. apply IH. eapply Forall_impl; [exact H|]. intros stem. apply contains_tail.
  - eapply Forall_impl; [exact H|]. intros stem Hc. cbn beta in *.
    destruct (startswith stem (String c s)) eqn:E; [|done].
    apply startswith_contains in E. congruence.
Qed.

Lemma replace_data_collection_plain (b : bool) (s : string) :
  contains "data_collection" s = false ->
  str_replace "data_collection." "method_" b s = s.
Proof.
  intros H. unfold str_replace, sub.
  apply (sub_scan_no_occurrence _ _ "data_collection"); [|exact H].
  intros t Ht. unfold match_len. destruct b.
  - change (compile "data_collection.")
      with (compile_branch ("data_collection" +:+ ".")).
    rewrite match_lens_stem_dot by reflexivity.
    unfold stem_occurs. by rewrite Ht.
  - rewrite match_lens_literal.
    destruct (startswith "data_collection." t) eqn:E; [|done].
    apply (startswith_app_l "data_collection" ".") in E. congruence.
Qed.

Lemma replace_data_collection_prefix (b : bool) (s : string) :
  str_replace "data_collection." "method_" b ("data_collection." +:+ s) =
    "method_" +:+ str_replace "data_collection." "method_" b s.
Proof. destruct b; reflexivity. Qed.

Lemma delete_occurrences_data_collection (s : string) :
  delete_occurrences 0 ("data_collection." +:+ s) =
    "data_collection." +:+ delete_occurrences 0 s.
Proof. reflexivity. Qed.

End RewriteFacts.

(** X1.  A column name in which none of [study_desc], [doc_desc],
    [study_info], [method] and [data_collection] occurs is written as it
    is. *)
Theorem rewrite_column_leaves_plain_names (default_regex : bool) (name : string) :
  Forall (fun word => contains word name = false)
         ["study_desc"; "doc_desc"; "study_info"; "method"; "data_collection"] ->
  rewrite_column default_regex name = name.
Proof.
  intros H. unfold rewrite_column.
  assert (Hstems : Forall (fun stem => contains stem name = false) RewriteSpec.stems).
  { unfold RewriteSpec.stems. repeat (apply Forall_cons in H as [? H]).
    repeat (apply Forall_cons; split; [assumption|]). apply Forall_nil_2. }
  assert (Hdc : contains "data_collection" name = false).
  { do 4 (apply Forall_cons in H as [_ H]). by apply Forall_cons in H as [H _]. }
  unfold str_replace at 2. unfold sub. rewrite sub_scan_delete.
  rewrite delete_occurrences_plain by exact Hstems.
  by apply replace_data_collection_plain.
Qed.

Lemma rewrite_column_leaves_plain_names_witness :
  Forall (fun word => contains word "title" = false)
         ["study_desc"; "doc_desc"; "study_info"; "method"; "data_collection"] /\
  rewrite_column true "title" = "title".
Proof.
  assert (H : Forall (fun word => contains word "title" = false)
                ["study_desc"; "doc_desc"; "study_info"; "method"; "data_collection"]).
  { repeat constructor. }
  split; [exact H|]. exact (rewrite_column_leaves_plain_names true "title" H).
Defined.

(** X2.  Each of the four patterns, standing at the head of a name, is
    removed and the rest rewritten as if it stood alone; so two names that
    differ only in that leading section are written under the same
    name. *)
Theorem leading_section_is_removed
    (default_regex : bool) (p1 p2 rest : string) :
  In p1 patterns_to_remove -> In p2 patterns_to_remove ->
  rewrite_column default_regex (p1 +:+ rest) = rewrite_column default_regex rest /\
  rewrite_column default_regex (p1 +:+ rest) = rewrite_column default_regex (p2 +:+ rest).
Proof.
  assert (Hone : forall p, In p patterns_to_remove ->
            rewrite_column default_regex (p +:+ rest) = rewrite_column default_regex rest).
  { intros p Hp. unfold rewrite_column. f_equal. unfold str_replace, sub.
    rewrite !sub_scan_delete. unfold patterns_to_remove in Hp. cbn [In] in Hp.
    destruct Hp as [<-|[<-|[<-|[<-|[]]]]].
    - apply (delete_leading_occurrence "study_desc" "." rest); [|reflexivity].
      unfold RewriteSpec.stems. cbn. tauto.
    - apply (delete_leading_occurrence "doc_desc" "." rest); [|reflexivity].
      unfold RewriteSpec.stems. cbn. tauto.
    - apply (delete_leading_occurrence "study_info" "." rest); [|reflexivity].
      unfold RewriteSpec.stems. cbn. tauto.
    - apply (delete_leading_occurrence "method" "." rest); [|reflexivity].
      unfold RewriteSpec.stems. cbn. tauto. }
  intros H1 H2. split; [by apply Hone|]. by rewrite !Hone.
Qed.

Lemma leading_section_is_removed_witness :
  In "study_info." patterns_to_remove /\ In "method." patterns_to_remove /\
  rewrite_column false ("study_info." +:+ "notes") = rewrite_column false "notes" /\
  rewrite_column false ("study_info." +:+ "notes") =
    rewrite_column false ("method." +:+ "notes").
Proof.
  assert (H1 : In "study_info." patterns_to_remove) by (cbn; tauto).
  assert (H2 : In "method." patterns_to_remove) by (cbn; tauto).
  split; [exact H1|]. split; [exact H2|].
  exact (leading_section_is_removed false "study_info." "method." "notes" H1 H2).
Defined.

(** X3.  A name that starts with [data_collection.] is written with
    [method_] in its place, followed by the rewrite of the rest. *)
Theorem data_collection_prefix_becomes_method (default_regex : bool) (rest : string) :
  rewrite_column default_regex ("data_collection." +:+ rest) =
    "method_" +:+ rewrite_column default_regex rest.
Proof.
  unfold rewrite_column. unfold str_replace at 2 4. unfold sub.
  rewrite !sub_scan_delete, delete_occurrences_data_collection.
  apply replace_data_collection_prefix.
Qed.

(** ** process_datasets: what reaches the file *)

Section WrittenFacts.

Lemma filter_sublist {A : Type} (f : A -> bool) (l : list A) :
  List.filter f l `sublist_of` l.
Proof.
  induction l as [|x l IH]; cbn; [constructor|].
  destruct (f x); by constructor.
Qed.

Lemma fmap_sublist {A B : Type} (g : A -> B) (l1 l2 : list A) :
  l1 `sublist_of` l2 -> g <$> l1 `sublist_of` g <$> l2.
Proof. induction 1; cbn; by constructor. Qed.

Lemma no_data_filter (l : list Column) :
  Forall (fun c => existsb notna (values c) = false) l ->
  List.filter (fun c => existsb notna (values c)) l = [].
Proof.
  induction 1 as [|c l Hc _ IH]; [done|]. cbn. by rewrite Hc.
Qed.

End WrittenFacts.

(** X4.  [process_datasets] adds no column, reorders none and changes no
    cell: the written columns are the rewritten input columns with some
    of them left out, in the input order, and the row count is kept. *)
Theorem written_is_a_selection_of_the_input
    (default_regex empty_index_is_object : bool)
    (df out : DataFrame) (output_file : string) :
  written default_regex empty_index_is_object df output_file = Some out ->
  cols out
    `sublist_of` ((fun c => {| label := rewrite_column default_regex (label c);
                               values := values c |}) <$> cols df)
  /\ (values <$> cols out) `sublist_of` (values <$> cols df)
  /\ columns out `sublist_of` (rewrite_column default_regex <$> columns df)
  /\ nrows out = nrows df.
Proof.
  intros Hout. apply written_Some, try_block_inr in Hout as [Hcols Hrows].
  assert (Hsub : cols out
            `sublist_of` ((fun c => {| label := rewrite_column default_regex (label c);
                                       values := values c |}) <$> cols df)).
  { rewrite Hcols. etrans; apply filter_sublist. }
  split; [exact Hsub|]. split; [|split; [|exact Hrows]].
  - apply (fmap_sublist values) in Hsub.
    by rewrite <- list_fmap_compose in Hsub.
  - apply (fmap_sublist label) in Hsub.
    unfold columns. by rewrite <- !list_fmap_compose in *.
Qed.

Lemma written_is_a_selection_of_the_input_witness :
  let df := {| nrows := 2;
               cols := [ {| label := "study_info.title"; values := [JStr "a"; JStr "b"] |};
                         {| label := "method.notes"; values := [JNull; JNull] |};
                         {| label := "id"; values := [JNum 1; JNum 2] |} ] |} in
  let out := {| nrows := 2;
                cols := [ {| label := "title"; values := [JStr "a"; JStr "b"] |};
                          {| label := "id"; values := [JNum 1; JNum 2] |} ] |} in
  written false false df "datasets.csv" = Some out /\
  columns out `sublist_of` (rewrite_column false <$> columns df) /\
  nrows out = nrows df.
Proof.
  cbv zeta.
  assert (H : written false false
                {| nrows := 2;
                   cols := [ {| label := "study_info.title";
                                values := [JStr "a"; JStr "b"] |};
                             {| label := "method.notes"; values := [JNull; JNull] |};
                             {| label := "id"; values := [JNum 1; JNum 2] |} ] |}
                "datasets.csv" =
              Some {| nrows := 2;
                      cols := [ {| label := "title"; values := [JStr "a"; JStr "b"] |};
                                {| label := "id"; values := [JNum 1; JNum 2] |} ] |})
    by reflexivity.
  split; [exact H|].
  destruct (written_is_a_selection_of_the_input false false _ _ "datasets.csv" H)
    as (_ & _ & Hsub & Hrows).
  split; [exact Hsub|exact Hrows].
Defined.

(** X5.  No column that holds data is lost, unless its rewritten name is
    [schematype]: an input column with a non-null cell is written, with
    its cells, under its rewritten name. *)
Theorem column_with_data_is_written
    (default_regex empty_index_is_object : bool)
    (df : DataFrame) (output_file : string) (c : Column) :
  In c (cols df) ->
  existsb notna (values c) = true ->
  rewrite_column default_regex (label c) <> "schematype" ->
  exists out,
    written default_regex empty_index_is_object df output_file = Some out /\
    In {| label := rewrite_column default_regex (label c); values := values c |}
       (cols out).
Proof.
  intros Hin Hdata Hname.
  destruct (try_block_with_columns default_regex empty_index_is_object df)
    as [out Hout].
  { intros E. rewrite E in Hin. destruct Hin. }
  exists out. split; [by apply written_Some|].
  apply try_block_inr in Hout as [-> _].
  apply filter_In. split.
  - apply filter_In. split; [|exact Hdata].
    apply (in_map (fun c => {| label := rewrite_column default_regex (label c);
                               values := values c |})) in Hin. exact Hin.
  - cbn. apply negb_true_iff. by apply String.eqb_neq.
Qed.

Lemma column_with_data_is_written_witness :
  let c := {| label := "study_info.notes"; values := [JNull; JStr "n"] |} in
  let df := {| nrows := 2;
               cols := [ {| label := "id"; values := [JNum 1; JNum 2] |}; c ] |} in
  In c (cols df) /\
  existsb notna (values c) = true /\
  rewrite_column true (label c) <> "schematype" /\
  exists out,
    written true false df "datasets.csv" = Some out /\
    In {| label := "notes"; values := [JNull; JStr "n"] |} (cols out).
Proof.
  cbv zeta.
  assert (Hin : In {| label := "study_info.notes"; values := [JNull; JStr "n"] |}
                   (cols {| nrows := 2;
                            cols := [ {| label := "id"; values := [JNum 1; JNum 2] |};
                                      {| label := "study_info.notes";
                                         values := [JNull; JStr "n"] |} ] |})).
  { right. left. reflexivity. }
  assert (Hname : rewrite_column true "study_info.notes" <> "schematype").
  { vm_compute. discriminate. }
  split; [exact Hin|]. split; [reflexivity|]. split; [exact Hname|].
  exact (column_with_data_is_written true false _ "datasets.csv" _ Hin eq_refl Hname).
Defined.

(** X6.  A frame in which no column has a non-null cell: when it has
    columns (or the empty object index) the file is written without any
    column and the printed shape counts none; when it has no column and
    its index is not of strings (the frame [pd.json_normalize([])] gives
    for a harvest of no record) line 50 raises, the [except] branch prints
    the error and no file is written. *)
Theorem frame_without_data_is_written_empty
    (default_regex empty_index_is_object : bool)
    (df : DataFrame) (output_file : string) :
  Forall (fun c => existsb notna (values c) = false) (cols df) ->
  process_datasets default_regex empty_index_is_object df output_file =
    if bool_decide (cols df = []) && negb empty_index_is_object
    then {| to_csv := None; printed := ErrorProcessing StrAccessorError |}
    else {| to_csv := Some (output_file, {| nrows := nrows df; cols := [] |});
            printed := Flattened (nrows df, 0) output_file |}.
Proof.
  intros H. unfold process_datasets, try_block.
  destruct (cols df) as [|c0 cs] eqn:Hcols.
  - rewrite bool_decide_eq_true_2 by done. unfold rewrite_columns, columns_str.
    rewrite Hcols. destruct empty_index_is_object; cbn; [|reflexivity].
    unfold map_columns, dropna_all, columns, shape. cbn. by rewrite Hcols.
  - rewrite bool_decide_eq_false_2 by done. cbn [andb].
    rewrite rewrite_columns_with_columns by (by rewrite Hcols).
    assert (Hf : List.filter (fun c => existsb notna (values c))
                   (cols (map_columns (rewrite_column default_regex) df)) = []).
    { apply no_data_filter. cbn [map_columns cols]. apply Forall_fmap.
      rewrite Hcols. exact H. }
    unfold dropna_all, columns, shape. cbn [cols nrows]. rewrite Hf. reflexivity.
Qed.

Lemma frame_without_data_is_written_empty_witness :
  let named := {| nrows := 0;
                  cols := [ {| label := "id"; values := [] |};
                            {| label := "title"; values := [] |} ] |} in
  let bare := {| nrows := 0; cols := [] |} in
  Forall (fun c => existsb notna (values c) = false) (cols named) /\
  Forall (fun c => existsb notna (values c) = false) (cols bare) /\
  process_datasets false false named "datasets.csv" =
    {| to_csv := Some ("datasets.csv", {| nrows := 0; cols := [] |});
       printed := Flattened (0, 0) "datasets.csv" |} /\
  process_datasets false false bare "datasets.csv" =
    {| to_csv := None; printed := ErrorProcessing StrAccessorError |}.
Proof.
  cbv zeta.
  assert (Hnamed : Forall (fun c => existsb notna (values c) = false)
                     (cols {| nrows := 0;
                              cols := [ {| label := "id"; values := [] |};
                                        {| label := "title"; values := [] |} ] |})).
  { repeat constructor. }
  assert (Hbare : Forall (fun c => existsb notna (values c) = false)
                    (cols {| nrows := 0; cols := [] |})).
  { constructor. }
  split; [exact Hnamed|]. split; [exact Hbare|]. split.
  - exact (frame_without_data_is_written_empty false false _ "datasets.csv" Hnamed).
  - exact (frame_without_data_is_written_empty false false _ "datasets.csv" Hbare).
Defined.

(** ** fetch_dataset: what comes back and what is refused *)

Section DictFacts.

Lemma dict_set_keys (d : list (string * json)) (k : string) (v : json) :
  (dict_set d k v).*1 =
    if existsb (String.eqb k) d.*1 then d.*1 else d.*1 ++ [k].
Proof.
  induction d as [|[k' v'] d IH]; cbn; [done|].
  destruct (String.eqb k k') eqn:E; cbn; [done|]. rewrite IH.
  by destruct (existsb _ _).
Qed.

End DictFacts.

(** X7.  Whatever [fetch_dataset] returns is a JSON object whose [id] is
    the identifier asked for. *)
Theorem fetch_dataset_returns_object_with_id
    (requests_get : string -> Unhcr.exn + Unhcr.Response)
    (id : Unhcr.Id) (data : json) :
  Unhcr.fetch_dataset requests_get id = inr data ->
  exists d, data = JObj d /\ dict_get d "id" = Some (Unhcr.id_value id).
Proof.
  intros H. apply fetch_dataset_returns_inv in H as (resp & d & _ & _ & _ & ->).
  eexists. split; [reflexivity|]. apply dict_get_set_eq.
Qed.

Lemma fetch_dataset_returns_object_with_id_witness :
  let requests_get := fun _ : string =>
    inr {| Unhcr.status_code := 200; Unhcr.body := Some (JObj [("title", JStr "t")]) |}
    : Unhcr.exn + Unhcr.Response in
  let data := JObj [("title", JStr "t"); ("id", JStr "UNHCR_1")] in
  Unhcr.fetch_dataset requests_get (Unhcr.IdStr "UNHCR_1") = inr data /\
  exists d, data = JObj d /\ dict_get d "id" = Some (JStr "UNHCR_1").
Proof.
  cbv zeta. split; [reflexivity|].
  exact (fetch_dataset_returns_object_with_id
           (fun _ => inr {| Unhcr.status_code := 200;
                            Unhcr.body := Some (JObj [("title", JStr "t")]) |})
           (Unhcr.IdStr "UNHCR_1") _ eq_refl).
Defined.

(** X8.  A body that decodes to anything but a JSON object (an array, a
    string, a number, null) is not returned: the assignment of [id]
    raises [TypeError]. *)
Theorem fetch_dataset_rejects_non_object
    (requests_get : string -> Unhcr.exn + Unhcr.Response)
    (id : Unhcr.Id) (resp : Unhcr.Response) (v : json) :
  requests_get (Unhcr.DATASET_EXPORT_URL (Unhcr.py_str id)) = inr resp ->
  Unhcr.raise_for_status resp = inr tt ->
  Unhcr.body resp = Some v ->
  (forall d, v <> JObj d) ->
  Unhcr.fetch_dataset requests_get id = inl Unhcr.TypeError.
Proof.
  intros Hget Hstatus Hbody Hv.
  unfold Unhcr.fetch_dataset, mbind, Unhcr.exn_bind, mret, Unhcr.exn_ret.
  rewrite Hget, Hstatus. unfold Unhcr.response_json. rewrite Hbody.
  destruct v; try reflexivity. by destruct (Hv l).
Qed.

Lemma fetch_dataset_rejects_non_object_witness :
  let resp := {| Unhcr.status_code := 200;
                 Unhcr.body := Some (JArr [JObj [("title", JStr "t")]]) |} in
  let requests_get := fun _ : string => inr resp : Unhcr.exn + Unhcr.Response in
  requests_get (Unhcr.DATASET_EXPORT_URL (Unhcr.py_str (Unhcr.IdInt 7))) = inr resp /\
  Unhcr.raise_for_status resp = inr tt /\
  Unhcr.body resp = Some (JArr [JObj [("title", JStr "t")]]) /\
  (forall d, JArr [JObj [("title", JStr "t")]] <> JObj d) /\
  Unhcr.fetch_dataset requests_get (Unhcr.IdInt 7) = inl Unhcr.TypeError.
Proof.
  cbv zeta.
  assert (Hv : forall d, JArr [JObj [("title", JStr "t")]] <> JObj d)
    by (intros d; discriminate).
  split; [reflexivity|]. split; [reflexivity|]. split; [reflexivity|].
  split; [exact Hv|].
  exact (fetch_dataset_rejects_non_object
           (fun _ => inr {| Unhcr.status_code := 200;
                            Unhcr.body := Some (JArr [JObj [("title", JStr "t")]]) |})
           (Unhcr.IdInt 7) _ _ eq_refl eq_refl eq_refl Hv).
Defined.

(** X9.  An answer with a status from 400 to 599 raises [HTTPError] with
    that status, even when its body is a well-formed object: the body is
    never looked at. *)
Theorem fetch_dataset_raises_on_error_status
    (requests_get : string -> Unhcr.exn + Unhcr.Response)
    (id : Unhcr.Id) (resp : Unhcr.Response) :
  requests_get (Unhcr.DATASET_EXPORT_URL (Unhcr.py_str id)) = inr resp ->
  400 <= Unhcr.status_code resp < 600 ->
  Unhcr.fetch_dataset requests_get id = inl (Unhcr.HTTPError (Unhcr.status_code resp)).
Proof.
  intros Hget [Hlo Hhi].
  unfold Unhcr.fetch_dataset, mbind, Unhcr.exn_bind. rewrite Hget.
  unfold Unhcr.raise_for_status.
  apply Nat.leb_le in Hlo. apply Nat.ltb_lt in Hhi. by rewrite Hlo, Hhi.
Qed.

Lemma fetch_dataset_raises_on_error_status_witness :
  let resp := {| Unhcr.status_code := 404;
                 Unhcr.body := Some (JObj [("title", JStr "t")]) |} in
  let requests_get := fun _ : string => inr resp : Unhcr.exn + Unhcr.Response in
  requests_get (Unhcr.DATASET_EXPORT_URL (Unhcr.py_str (Unhcr.IdInt 7))) = inr resp /\
  400 <= Unhcr.status_code resp < 600 /\
  Unhcr.fetch_dataset requests_get (Unhcr.IdInt 7) = inl (Unhcr.HTTPError 404).
Proof.
  cbv zeta.
  assert (Hs : 400 <= 404 < 600) by (split; [apply Nat.leb_le|apply Nat.ltb_lt]; reflexivity).
  split; [reflexivity|]. split; [exact Hs|].
  exact (fetch_dataset_raises_on_error_status
           (fun _ => inr {| Unhcr.status_code := 404;
                            Unhcr.body := Some (JObj [("title", JStr "t")]) |})
           (Unhcr.IdInt 7) _ eq_refl Hs).
Defined.

(** X10.  The record returned keeps the keys of the payload in their
    order; [id] stays where the payload had it and goes last when the
    payload had none. *)
Theorem fetch_dataset_keeps_key_order
    (requests_get : string -> Unhcr.exn + Unhcr.Response)
    (id : Unhcr.Id) (d' : list (string * json)) :
  Unhcr.fetch_dataset requests_get id = inr (JObj d') ->
  exists resp d,
    requests_get (Unhcr.DATASET_EXPORT_URL (Unhcr.py_str id)) = inr resp /\
    Unhcr.body resp = Some (JObj d) /\
    d'.*1 = (if existsb (String.eqb "id") d.*1 then d.*1 else d.*1 ++ ["id"]) /\
    forall k, k <> "id" -> dict_get d' k = dict_get d k.
Proof.
  intros H. apply fetch_dataset_returns_inv in H as (resp & d & Hget & _ & Hbody & [= ->]).
  exists resp, d. split; [exact Hget|]. split; [exact Hbody|]. split.
  - apply dict_set_keys.
  - intros k Hk. by apply dict_get_set_ne.
Qed.

Lemma fetch_dataset_keeps_key_order_witness :
  let payload := [("title", JStr "t"); ("id", JStr "remote"); ("year", JNum 2025)] in
  let resp := {| Unhcr.status_code := 200; Unhcr.body := Some (JObj payload) |} in
  let requests_get := fun _ : string => inr resp : Unhcr.exn + Unhcr.Response in
  let d' := [("title", JStr "t"); ("id", JNum 7); ("year", JNum 2025)] in
  Unhcr.fetch_dataset requests_get (Unhcr.IdInt 7) = inr (JObj d') /\
  exists resp0 d,
    requests_get (Unhcr.DATASET_EXPORT_URL (Unhcr.py_str (Unhcr.IdInt 7))) = inr resp0 /\
    Unhcr.body resp0 = Some (JObj d) /\
    d'.*1 = (if existsb (String.eqb "id") d.*1 then d.*1 else d.*1 ++ ["id"]) /\
    forall k, k <> "id" -> dict_get d' k = dict_get d k.
Proof.
  cbv zeta. split; [reflexivity|].
  exact (fetch_dataset_keeps_key_order
           (fun _ => inr {| Unhcr.status_code := 200;
                            Unhcr.body := Some (JObj [("title", JStr "t");
                                                      ("id", JStr "remote");
                                                      ("year", JNum 2025)]) |})
           (Unhcr.IdInt 7) _ eq_refl).
Defined.

(** ** fetch_metadata_list: what is returned, raised and logged *)

Section MetadataListFacts.
Import PyExn UnhcrList.

Variable requests_get : string -> Unhcr.exn + Unhcr.Response.
Variable pd_DataFrame : json -> exn + DataFrame.
Variable json_error_is_request_exception : bool.

Lemma getitem_inv (data : json) (k : string) (v : json) :
  getitem data k = inr v -> exists d, data = JObj d /\ dict_get d k = Some v.
Proof.
  destruct data as [| | | | |d]; cbn; try discriminate.
  destruct (dict_get d k) eqn:E; [|discriminate]. intros [= <-]. eauto.
Qed.

Lemma fetch_metadata_list_body_inv (df : DataFrame) :
  fetch_metadata_list_body requests_get pd_DataFrame = inr df ->
  exists resp d r rows,
    requests_get METADATA_LIST_URL = inr resp /\
    Unhcr.raise_for_status resp = inr tt /\
    Unhcr.body resp = Some (JObj d) /\
    dict_get d "result" = Some (JObj r) /\
    dict_get r "rows" = Some rows /\
    pd_DataFrame rows = inr df.
Proof.
  unfold fetch_metadata_list_body, mbind, exn_bind.
  destruct (requests_get METADATA_LIST_URL) as [e|resp]; [discriminate|]. cbn [lift].
  destruct (Unhcr.raise_for_status resp) as [e|[]] eqn:Hs; [discriminate|]. cbn [lift].
  unfold Unhcr.response_json. destruct (Unhcr.body resp) as [data|] eqn:Hb; [|discriminate].
  cbn [lift].
  destruct (getitem data "result") as [e|result] eqn:H1; [discriminate|].
  destruct (getitem result "rows") as [e|rows] eqn:H2; [discriminate|].
  intros Hdf. apply getitem_inv in H1 as (d & -> & H1).
  apply getitem_inv in H2 as (r & -> & H2). eauto 10.
Qed.

End MetadataListFacts.

(** X11.  [fetch_metadata_list] returns a frame only when the request went
    through without an error status and the body is an object whose
    [result] is an object with a [rows] entry; the frame is the one
    [pd.DataFrame] builds from those rows, and nothing is logged. *)
Theorem fetch_metadata_list_returns_the_rows
    (requests_get : string -> Unhcr.exn + Unhcr.Response)
    (pd_DataFrame : json -> PyExn.exn + DataFrame)
    (json_error_is_request_exception : bool)
    (log : list UnhcrList.log_line) (df : DataFrame) :
  UnhcrList.fetch_metadata_list requests_get pd_DataFrame
    json_error_is_request_exception = (log, inr df) ->
  log = [] /\
  exists resp d r rows,
    requests_get UnhcrList.METADATA_LIST_URL = inr resp /\
    Unhcr.raise_for_status resp = inr tt /\
    Unhcr.body resp = Some (JObj d) /\
    dict_get d "result" = Some (JObj r) /\
    dict_get r "rows" = Some rows /\
    pd_DataFrame rows = inr df.
Proof.
  unfold UnhcrList.fetch_metadata_list.
  destruct (UnhcrList.fetch_metadata_list_body _ _) as [e|df'] eqn:Hbody.
  - destruct (UnhcrList.is_RequestException _ e); [discriminate|].
    destruct (UnhcrList.is_ValueError_or_KeyError e); discriminate.
  - intros [= <- <-]. split; [reflexivity|].
    by apply fetch_metadata_list_body_inv.
Qed.

Lemma fetch_metadata_list_returns_the_rows_witness :
  let rows := JArr [JObj [("id", JNum 1)]; JObj [("id", JNum 2)]] in
  let requests_get := fun _ : string =>
    inr {| Unhcr.status_code := 200;
           Unhcr.body := Some (JObj [("result", JObj [("rows", rows)])]) |}
    : Unhcr.exn + Unhcr.Response in
  let df := {| nrows := 2;
               cols := [ {| label := "id"; values := [JNum 1; JNum 2] |} ] |} in
  let pd_DataFrame := fun _ : json => inr df : PyExn.exn + DataFrame in
  UnhcrList.fetch_metadata_list requests_get pd_DataFrame true = ([], inr df) /\
  exists resp d r rows0,
    requests_get UnhcrList.METADATA_LIST_URL = inr resp /\
    Unhcr.raise_for_status resp = inr tt /\
    Unhcr.body resp = Some (JObj d) /\
    dict_get d "result" = Some (JObj r) /\
    dict_get r "rows" = Some rows0 /\
    pd_DataFrame rows0 = inr df.
Proof.
  cbv zeta. split; [reflexivity|].
  exact (proj2 (fetch_metadata_list_returns_the_rows
    (fun _ => inr {| Unhcr.status_code := 200;
                     Unhcr.body := Some (JObj [("result",
                       JObj [("rows", JArr [JObj [("id", JNum 1)];
                                            JObj [("id", JNum 2)]])])]) |})
    (fun _ => inr {| nrows := 2;
                     cols := [ {| label := "id"; values := [JNum 1; JNum 2] |} ] |})
    true [] _ eq_refl)).
Defined.

(** X12.  What [fetch_metadata_list] raises is what the failing step
    raised, and it is logged once before it is raised again, with one
    exception: a [TypeError] or [AttributeError] passes both handlers and
    leaves no line. *)
Theorem fetch_metadata_list_logs_before_raising
    (requests_get : string -> Unhcr.exn + Unhcr.Response)
    (pd_DataFrame : json -> PyExn.exn + DataFrame)
    (json_error_is_request_exception : bool)
    (log : list UnhcrList.log_line) (e : PyExn.exn) :
  UnhcrList.fetch_metadata_list requests_get pd_DataFrame
    json_error_is_request_exception = (log, inl e) ->
  UnhcrList.fetch_metadata_list_body requests_get pd_DataFrame = inl e /\
  match e with
  | PyExn.Lib Unhcr.TypeError | PyExn.AttributeError => log = []
  | PyExn.Lib (Unhcr.RequestException _) | PyExn.Lib (Unhcr.HTTPError _) =>
      log = [UnhcrList.RequestFailed e]
  | PyExn.Lib Unhcr.JSONDecodeError =>
      log = [if json_error_is_request_exception
             then UnhcrList.RequestFailed e else UnhcrList.ProcessFailed e]
  | PyExn.KeyError _ | PyExn.ValueError _ => log = [UnhcrList.ProcessFailed e]
  end.
Proof.
  unfold UnhcrList.fetch_metadata_list.
  destruct (UnhcrList.fetch_metadata_list_body _ _) as [e'|df]; [|discriminate].
  destruct e' as [[| | |]| | |]; cbn;
    try destruct json_error_is_request_exception; intros [= <- <-]; done.
Qed.

Lemma fetch_metadata_list_logs_before_raising_witness :
  let requests_get := fun _ : string =>
    inr {| Unhcr.status_code := 200;
           Unhcr.body := Some (JObj [("error", JStr "maintenance")]) |}
    : Unhcr.exn + Unhcr.Response in
  let pd_DataFrame := fun _ : json =>
    inr {| nrows := 0; cols := [] |} : PyExn.exn + DataFrame in
  UnhcrList.fetch_metadata_list requests_get pd_DataFrame true =
    ([UnhcrList.ProcessFailed (PyExn.KeyError "result")],
     inl (PyExn.KeyError "result")) /\
  UnhcrList.fetch_metadata_list_body requests_get pd_DataFrame =
    inl (PyExn.KeyError "result").
Proof.
  cbv zeta. split; [reflexivity|].
  exact (proj1 (fetch_metadata_list_logs_before_raising
    (fun _ => inr {| Unhcr.status_code := 200;
                     Unhcr.body := Some (JObj [("error", JStr "maintenance")]) |})
    (fun _ => inr {| nrows := 0; cols := [] |})
    true _ _ eq_refl)).
Defined.

(** X13.  A body that is valid JSON but not an object (an array of rows,
    say) makes [fetch_metadata_list] raise [TypeError] without a log
    line. *)
Theorem fetch_metadata_list_non_object_is_not_logged
    (requests_get : string -> Unhcr.exn + Unhcr.Response)
    (pd_DataFrame : json -> PyExn.exn + DataFrame)
    (json_error_is_request_exception : bool)
    (resp : Unhcr.Response) (v : json) :
  requests_get UnhcrList.METADATA_LIST_URL = inr resp ->
  Unhcr.raise_for_status resp = inr tt ->
  Unhcr.body resp = Some v ->
  (forall d, v <> JObj d) ->
  UnhcrList.fetch_metadata_list requests_get pd_DataFrame
    json_error_is_request_exception = ([], inl (PyExn.Lib Unhcr.TypeError)).
Proof.
  intros Hget Hstatus Hbody Hv.
  unfold UnhcrList.fetch_metadata_list, UnhcrList.fetch_metadata_list_body,
    mbind, PyExn.exn_bind.
  rewrite Hget. cbn [PyExn.lift]. rewrite Hstatus. cbn [PyExn.lift].
  unfold Unhcr.response_json. rewrite Hbody. cbn [PyExn.lift].
  destruct v; try reflexivity. by destruct (Hv l).
Qed.

Lemma fetch_metadata_list_non_object_is_not_logged_witness :
  let resp := {| Unhcr.status_code := 200;
                 Unhcr.body := Some (JArr [JObj [("id", JNum 1)]]) |} in
  let requests_get := fun _ : string => inr resp : Unhcr.exn + Unhcr.Response in
  let pd_DataFrame := fun _ : json =>
    inr {| nrows := 0; cols := [] |} : PyExn.exn + DataFrame in
  requests_get UnhcrList.METADATA_LIST_URL = inr resp /\
  Unhcr.raise_for_status resp = inr tt /\
  Unhcr.body resp = Some (JArr [JObj [("id", JNum 1)]]) /\
  (forall d, JArr [JObj [("id", JNum 1)]] <> JObj d) /\
  UnhcrList.fetch_metadata_list requests_get pd_DataFrame false =
    ([], inl (PyExn.Lib Unhcr.TypeError)).
Proof.
  cbv zeta.
  assert (Hv : forall d, JArr [JObj [("id", JNum 1)]] <> JObj d)
    by (intros d; discriminate).
  split; [reflexivity|]. split; [reflexivity|]. split; [reflexivity|].
  split; [exact Hv|].
  exact (fetch_metadata_list_non_object_is_not_logged
    (fun _ => inr {| Unhcr.status_code := 200;
                     Unhcr.body := Some (JArr [JObj [("id", JNum 1)]]) |})
    (fun _ => inr {| nrows := 0; cols := [] |})
    false _ _ eq_refl eq_refl eq_refl Hv).
Defined.

(** ** fetch_latest and filter_by_year *)

Section LatestFacts.
Import PyExn Latest.

Variable str_container : json -> string.

Lemma filter_loop_dicts (year : Z) (studies keep : list json) :
  forallb is_dict studies = true ->
  filter_loop str_container year keep studies =
    inr (keep ++ List.filter (created_in str_container year) studies).
Proof.
  revert keep. induction studies as [|s rest IH]; intros keep H; cbn.
  - by rewrite app_nil_r.
  - apply andb_true_iff in H as [Hs Hrest].
    destruct s as [| | | | |d]; try discriminate. cbn.
    destruct (truthy _); cbn; [|by apply IH].
    destruct (contains _ _); [|by apply IH].
    rewrite IH by done. by rewrite <- app_assoc.
Qed.

Lemma filter_loop_not_dict (year : Z) (studies keep : list json) :
  forallb is_dict studies = false ->
  filter_loop str_container year keep studies = inl AttributeError.
Proof.
  revert keep. induction studies as [|s rest IH]; intros keep H; [discriminate|].
  cbn in H. destruct s as [| | | | |d]; try reflexivity. cbn in H. cbn.
  destruct (truthy _); cbn; [|by apply IH].
  destruct (contains _ _); by apply IH.
Qed.

Lemma filter_twice {A : Type} (f : A -> bool) (l : list A) :
  List.filter f (List.filter f l) = List.filter f l.
Proof.
  induction l as [|x l IH]; [done|]. cbn. destruct (f x) eqn:E; [|done].
  cbn. by rewrite E, IH.
Qed.

Lemma filter_by_year_stable (studies kept : list json) (year : Z) :
  filter_by_year str_container studies year = inr kept ->
  kept `sublist_of` studies /\
  length kept <= length studies /\
  kept = List.filter (created_in str_container year) studies.
Proof.
  unfold filter_by_year. intros H.
  destruct (forallb is_dict studies) eqn:E.
  - rewrite filter_loop_dicts in H by done. cbn in H. injection H as <-.
    split; [apply filter_sublist|]. split; [|reflexivity].
    apply sublist_length, filter_sublist.
  - rewrite filter_loop_not_dict in H by done. discriminate.
Qed.

Lemma created_in_is_dict (year : Z) (s : json) :
  created_in str_container year s = true -> is_dict s = true.
Proof. by destruct s. Qed.

End LatestFacts.

(** X14.  [filter_by_year] fails with [AttributeError] as soon as one
    study is not a JSON object, keeping nothing; on objects it returns, in
    their order, exactly the studies whose [created] is truthy and holds
    the digits of the year as a substring. *)
Theorem filter_by_year_keeps_matching_studies
    (str_container : json -> string) (studies : list json) (year : Z) :
  Latest.filter_by_year str_container studies year =
    if forallb Latest.is_dict studies
    then inr (List.filter (Latest.created_in str_container year) studies)
    else inl PyExn.AttributeError.
Proof.
  unfold Latest.filter_by_year. destruct (forallb _ _) eqn:E.
  - by rewrite filter_loop_dicts.
  - by apply filter_loop_not_dict.
Qed.

(** X15.  What [filter_by_year] keeps is a selection of its input in the
    input order, never more than it was given, and filtering the kept
    studies again for the same year keeps them all. *)
Theorem filter_by_year_is_a_stable_selection
    (str_container : json -> string) (studies kept : list json) (year : Z) :
  Latest.filter_by_year str_container studies year = inr kept ->
  kept `sublist_of` studies /\
  length kept <= length studies /\
  Forall (fun s => Latest.created_in str_container year s = true) kept /\
  Latest.filter_by_year str_container kept year = inr kept.
Proof.
  unfold Latest.filter_by_year. intros H.
  destruct (forallb Latest.is_dict studies) eqn:E.
  - rewrite filter_loop_dicts in H by done. cbn in H. injection H as <-.
    assert (Hsub : List.filter (Latest.created_in str_container year) studies
                     `sublist_of` studies) by apply filter_sublist.
    split; [exact Hsub|]. split; [by apply sublist_length|].
    assert (Hall : Forall (fun s => Latest.created_in str_container year s = true)
                     (List.filter (Latest.created_in str_container year) studies)).
    { apply List.Forall_forall. intros s Hs. by apply filter_In in Hs as [_ Hs]. }
    split; [exact Hall|].
    rewrite filter_loop_dicts.
    + cbn. by rewrite filter_twice.
    + apply forallb_forall. intros s Hs. apply filter_In in Hs as [_ Hs].
      by apply created_in_is_dict in Hs.
  - rewrite filter_loop_not_dict in H by done. discriminate.
Qed.

Lemma filter_by_year_is_a_stable_selection_witness :
  let a := JObj [("id", JNum 1); ("created", JStr "Nov-13-2025")] in
  let b := JObj [("id", JNum 2); ("created", JStr "Dec-01-2024")] in
  let c := JObj [("id", JNum 3)] in
  let d := JObj [("id", JNum 4); ("created", JNum 20250102)] in
  Latest.filter_by_year (fun _ => "") [a; b; c; d] 2025 = inr [a; d] /\
  [a; d] `sublist_of` [a; b; c; d] /\
  Latest.filter_by_year (fun _ => "") [a; d] 2025 = inr [a; d].
Proof.
  cbv zeta.
  assert (H : Latest.filter_by_year (fun _ => "")
                [ JObj [("id", JNum 1); ("created", JStr "Nov-13-2025")];
                  JObj [("id", JNum 2); ("created", JStr "Dec-01-2024")];
                  JObj [("id", JNum 3)];
                  JObj [("id", JNum 4); ("created", JNum 20250102)] ] 2025 =
              inr [ JObj [("id", JNum 1); ("created", JStr "Nov-13-2025")];
                    JObj [("id", JNum 4); ("created", JNum 20250102)] ]).
  { vm_compute. reflexivity. }
  split; [exact H|].
  destruct (filter_by_year_is_a_stable_selection _ _ _ _ H) as (Hsub & _ & _ & Hagain).
  split; [exact Hsub|exact Hagain].
Defined.

(** X16.  [fetch_latest] returns only what stood as an array under
    [result] in an object answered without an error status. *)
Theorem fetch_latest_returns_the_result_array
    (requests_get : string -> Z -> Unhcr.exn + Unhcr.Response)
    (limit : Z) (data : list json) :
  Latest.fetch_latest requests_get limit = inr data ->
  exists resp d,
    requests_get Latest.API_URL limit = inr resp /\
    Unhcr.raise_for_status resp = inr tt /\
    Unhcr.body resp = Some (JObj d) /\
    dict_get d "result" = Some (JArr data).
Proof.
  unfold Latest.fetch_latest, mbind, PyExn.exn_bind.
  destruct (requests_get Latest.API_URL limit) as [e|resp]; [discriminate|].
  cbn [PyExn.lift].
  destruct (Unhcr.raise_for_status resp) as [e|[]] eqn:Hs; [discriminate|].
  cbn [PyExn.lift]. unfold Unhcr.response_json.
  destruct (Unhcr.body resp) as [payload|] eqn:Hb; [|discriminate]. cbn [PyExn.lift].
  destruct payload as [| | | | |d]; try discriminate.
  destruct (dict_get d "result") as [[| | | |l|]|] eqn:Hr; try discriminate.
  intros [= <-]. eauto 10.
Qed.

Lemma fetch_latest_returns_the_result_array_witness :
  let studies := [JObj [("id", JNum 1)]; JObj [("id", JNum 2)]] in
  let requests_get := fun (_ : string) (_ : Z) =>
    inr {| Unhcr.status_code := 200;
           Unhcr.body := Some (JObj [("status", JStr "success");
                                     ("result", JArr studies)]) |}
    : Unhcr.exn + Unhcr.Response in
  Latest.fetch_latest requests_get 500 = inr studies /\
  exists resp d,
    requests_get Latest.API_URL 500%Z = inr resp /\
    Unhcr.raise_for_status resp = inr tt /\
    Unhcr.body resp = Some (JObj d) /\
    dict_get d "result" = Some (JArr studies).
Proof.
  cbv zeta. split; [reflexivity|].
  exact (fetch_latest_returns_the_result_array
    (fun _ _ => inr {| Unhcr.status_code := 200;
                       Unhcr.body := Some (JObj [("status", JStr "success");
                         ("result", JArr [JObj [("id", JNum 1)];
                                          JObj [("id", JNum 2)]])]) |})
    500%Z _ eq_refl).
Defined.

(** X17.  When the body decodes but is not an object with an array under
    [result], [fetch_latest] raises [ValueError]: no [KeyError] or
    [TypeError] escapes from the lookup. *)
Theorem fetch_latest_rejects_other_shapes
    (requests_get : string -> Z -> Unhcr.exn + Unhcr.Response)
    (limit : Z) (resp : Unhcr.Response) (payload : json) :
  requests_get Latest.API_URL limit = inr resp ->
  Unhcr.raise_for_status resp = inr tt ->
  Unhcr.body resp = Some payload ->
  (forall d l, payload = JObj d -> dict_get d "result" <> Some (JArr l)) ->
  exists msg, Latest.fetch_latest requests_get limit = inl (PyExn.ValueError msg).
Proof.
  intros Hget Hstatus Hbody Hshape.
  unfold Latest.fetch_latest, mbind, PyExn.exn_bind.
  rewrite Hget. cbn [PyExn.lift]. rewrite Hstatus. cbn [PyExn.lift].
  unfold Unhcr.response_json. rewrite Hbody. cbn [PyExn.lift].
  destruct payload as [| | | | |d]; eauto.
  destruct (dict_get d "result") as [[| | | |l|]|] eqn:Hr; eauto.
  by destruct (Hshape d l).
Qed.

Lemma fetch_latest_rejects_other_shapes_witness :
  let payload := JObj [("result", JObj [("rows", JArr [])])] in
  let resp := {| Unhcr.status_code := 200; Unhcr.body := Some payload |} in
  let requests_get := fun (_ : string) (_ : Z) => inr resp : Unhcr.exn + Unhcr.Response in
  requests_get Latest.API_URL 500%Z = inr resp /\
  Unhcr.raise_for_status resp = inr tt /\
  Unhcr.body resp = Some payload /\
  (forall d l, payload = JObj d -> dict_get d "result" <> Some (JArr l)) /\
  exists msg, Latest.fetch_latest requests_get 500 = inl (PyExn.ValueError msg).
Proof.
  cbv zeta.
  assert (Hshape : forall d l,
            JObj [("result", JObj [("rows", JArr [])])] = JObj d ->
            dict_get d "result" <> Some (JArr l)).
  { intros d l [= <-]. cbn. discriminate. }
  split; [reflexivity|]. split; [reflexivity|]. split; [reflexivity|].
  split; [exact Hshape|].
  exact (fetch_latest_rejects_other_shapes
    (fun _ _ => inr {| Unhcr.status_code := 200;
                       Unhcr.body := Some (JObj [("result", JObj [("rows", JArr [])])]) |})
    500%Z _ _ eq_refl eq_refl eq_refl Hshape).
Defined.

(** ** fetch_mapping *)

Section CountryMappingFacts.
Import CountryMapping.

Lemma present_Some (attr : option string) (s : string) :
  present attr = Some s -> attr = Some s /\ s <> "".
Proof.
  destruct attr as [s'|]; cbn; [|discriminate].
  destruct (String.eqb s' "") eqn:E; [discriminate|].
  intros [= <-]. split; [reflexivity|]. by apply String.eqb_neq.
Qed.

Lemma add_tag_lookup (m : gmap string string) (inp : InputTag) (k t : string) :
  add_tag m inp !! k = Some t ->
  m !! k = Some t \/
  (present (value inp) = Some k /\ present (data_title inp) = Some t).
Proof.
  unfold add_tag.
  destruct (present (value inp)) as [v|] eqn:Hv; [|by left].
  destruct (present (data_title inp)) as [t'|] eqn:Ht; [|by left].
  rewrite lookup_insert. case_decide as E; [|by left].
  intros [= <-]. subst. by right.
Qed.

Lemma fold_add_tag_lookup (tags : list InputTag) (m : gmap string string) (k t : string) :
  fold_left add_tag tags m !! k = Some t ->
  m !! k = Some t \/
  exists inp, In inp tags /\
    present (value inp) = Some k /\ present (data_title inp) = Some t.
Proof.
  revert m. induction tags as [|inp tags IH]; intros m; cbn; [by left|].
  intros H. apply IH in H as [H|(inp' & Hin & Hv & Ht)].
  - apply add_tag_lookup in H as [H|[Hv Ht]]; [by left|]. right. exists inp. tauto.
  - right. exists inp'. tauto.
Qed.

Lemma fold_add_tag_other (tags : list InputTag) (m : gmap string string) (k : string) :
  Forall (fun inp => present (value inp) <> Some k \/
                     present (data_title inp) = None) tags ->
  fold_left add_tag tags m !! k = m !! k.
Proof.
  revert m. induction tags as [|inp tags IH]; intros m H; cbn; [done|].
  apply Forall_cons in H as [Hinp H]. rewrite IH by done. unfold add_tag.
  destruct (present (value inp)) as [v|]; [|done].
  destruct (present (data_title inp)); [|done].
  destruct Hinp as [Hinp|Hinp]; [|discriminate].
  apply lookup_insert_ne. congruence.
Qed.

End CountryMappingFacts.

(** X18.  Every entry of the mapping [fetch_mapping] returns comes from a
    tag of the fetched page that carries this identifier as its [value]
    and this name as its [data-title], neither of them empty. *)
Theorem fetch_mapping_entries_come_from_tags
    (requests_get : string -> Unhcr.exn + CountryMapping.HtmlResponse)
    (find_country_inputs : string -> list CountryMapping.InputTag)
    (url : string) (mapping : gmap string string) (k t : string) :
  CountryMapping.fetch_mapping requests_get find_country_inputs url = inr mapping ->
  mapping !! k = Some t ->
  k <> "" /\ t <> "" /\
  exists resp inp,
    requests_get url = inr resp /\
    CountryMapping.raise_for_status resp = inr tt /\
    In inp (find_country_inputs (CountryMapping.text resp)) /\
    CountryMapping.value inp = Some k /\
    CountryMapping.data_title inp = Some t.
Proof.
  unfold CountryMapping.fetch_mapping, mbind, Unhcr.exn_bind, mret, Unhcr.exn_ret.
  destruct (requests_get url) as [e|resp] eqn:Hget; [discriminate|].
  destruct (CountryMapping.raise_for_status resp) as [e|[]] eqn:Hs; [discriminate|].
  intros [= <-] Hk. unfold CountryMapping.collect in Hk.
  apply fold_add_tag_lookup in Hk as [Hk|(inp & Hin & Hv & Ht)].
  - by rewrite lookup_empty in Hk.
  - apply present_Some in Hv as [Hv Hk']. apply present_Some in Ht as [Ht Ht'].
    split; [exact Hk'|]. split; [exact Ht'|]. exists resp, inp. tauto.
Qed.

Lemma fetch_mapping_entries_come_from_tags_witness :
  let tags := [ {| CountryMapping.value := Some "4"; CountryMapping.data_title := Some "Afghanistan" |};
                {| CountryMapping.value := Some ""; CountryMapping.data_title := Some "Nowhere" |};
                {| CountryMapping.value := Some "8"; CountryMapping.data_title := None |} ] in
  let requests_get := fun _ : string =>
    inr {| CountryMapping.html_status := 200; CountryMapping.text := "<html>" |}
    : Unhcr.exn + CountryMapping.HtmlResponse in
  CountryMapping.fetch_mapping requests_get (fun _ => tags) "https://example.org" =
    inr {[ "4" := "Afghanistan" ]} /\
  ({[ "4" := "Afghanistan" ]} : gmap string string) !! "4" = Some "Afghanistan" /\
  "4" <> "" /\ "Afghanistan" <> "".
Proof.
  cbv zeta.
  assert (H : CountryMapping.fetch_mapping
                (fun _ => inr {| CountryMapping.html_status := 200;
                                 CountryMapping.text := "<html>" |})
                (fun _ => [ {| CountryMapping.value := Some "4";
                               CountryMapping.data_title := Some "Afghanistan" |};
                            {| CountryMapping.value := Some "";
                               CountryMapping.data_title := Some "Nowhere" |};
                            {| CountryMapping.value := Some "8";
                               CountryMapping.data_title := None |} ])
                "https://example.org" = inr {[ "4" := "Afghanistan" ]}).
  { reflexivity. }
  assert (Hk : ({[ "4" := "Afghanistan" ]} : gmap string string) !! "4"
                 = Some "Afghanistan") by apply lookup_singleton_eq.
  split; [exact H|]. split; [exact Hk|].
  destruct (fetch_mapping_entries_come_from_tags _ _ _ _ _ _ H Hk) as (Hk' & Ht' & _).
  split; [exact Hk'|exact Ht'].
Defined.

(** X19.  When several tags carry the same identifier, the name of the
    last one that has both attributes non-empty is the one kept: later
    tags with another identifier, or with this one but no name, do not
    change it. *)
Theorem collect_keeps_the_last_title
    (before after : list CountryMapping.InputTag)
    (inp : CountryMapping.InputTag) (k t : string) :
  CountryMapping.present (CountryMapping.value inp) = Some k ->
  CountryMapping.present (CountryMapping.data_title inp) = Some t ->
  Forall (fun later =>
            CountryMapping.present (CountryMapping.value later) <> Some k \/
            CountryMapping.present (CountryMapping.data_title later) = None) after ->
  CountryMapping.collect (before ++ inp :: after) !! k = Some t.
Proof.
  intros Hv Ht Hafter. unfold CountryMapping.collect.
  rewrite fold_left_app. cbn [fold_left].
  rewrite fold_add_tag_other by exact Hafter.
  unfold CountryMapping.add_tag at 1. rewrite Hv, Ht. apply lookup_insert_eq.
Qed.

Lemma collect_keeps_the_last_title_witness :
  let old := {| CountryMapping.value := Some "180";
                CountryMapping.data_title := Some "Congo, Dem. Rep." |} in
  let new := {| CountryMapping.value := Some "180";
                CountryMapping.data_title := Some "Congo (Democratic Republic of the)" |} in
  let untitled := {| CountryMapping.value := Some "180";
                     CountryMapping.data_title := None |} in
  let blank := {| CountryMapping.value := Some "180";
                  CountryMapping.data_title := Some "" |} in
  let other := {| CountryMapping.value := Some "4";
                  CountryMapping.data_title := Some "Afghanistan" |} in
  CountryMapping.present (CountryMapping.value new) = Some "180" /\
  CountryMapping.present (CountryMapping.data_title new) =
    Some "Congo (Democratic Republic of the)" /\
  Forall (fun later =>
            CountryMapping.present (CountryMapping.value later) <> Some "180" \/
            CountryMapping.present (CountryMapping.data_title later) = None)
         [untitled; other; blank] /\
  CountryMapping.collect ([old] ++ new :: [untitled; other; blank]) !! "180" =
    Some "Congo (Democratic Republic of the)".
Proof.
  cbv zeta.
  assert (Hafter : Forall (fun later =>
            CountryMapping.present (CountryMapping.value later) <> Some "180" \/
            CountryMapping.present (CountryMapping.data_title later) = None)
            [ {| CountryMapping.value := Some "180";
                 CountryMapping.data_title := None |};
              {| CountryMapping.value := Some "4";
                 CountryMapping.data_title := Some "Afghanistan" |};
              {| CountryMapping.value := Some "180";
                 CountryMapping.data_title := Some "" |} ]).
  { apply Forall_cons. split; [right; reflexivity|].
    apply Forall_cons. split; [left; cbn; discriminate|].
    apply Forall_cons. split; [right; reflexivity|apply Forall_nil_2]. }
  split; [reflexivity|]. split; [reflexivity|]. split; [exact Hafter|].
  exact (collect_keeps_the_last_title
           [ {| CountryMapping.value := Some "180";
                CountryMapping.data_title := Some "Congo, Dem. Rep." |} ]
           _ {| CountryMapping.value := Some "180";
                CountryMapping.data_title := Some "Congo (Democratic Republic of the)" |}
           "180" _ eq_refl eq_refl Hafter).
Defined.

(** X20.  A run of the script that ends well has dumped studies of the
    fetched [result] array only, in their order, each with the year in
    its [created] field, and the two counts it prints are the sizes of
    the fetched and of the dumped list. *)
Theorem main_dumps_a_selection_of_the_fetched
    (requests_get : string -> Z -> Unhcr.exn + Unhcr.Response)
    (str_container : json -> string)
    (args : Latest.Args) (report : Latest.Report) :
  Latest.main requests_get str_container args = inr report ->
  exists studies,
    Latest.fetch_latest requests_get (Latest.limit args) = inr studies /\
    Latest.dumped report =
      List.filter (Latest.created_in str_container (Latest.year args)) studies /\
    Latest.dumped report `sublist_of` studies /\
    Latest.printed_fetched report = length studies /\
    Latest.printed_kept report = length (Latest.dumped report) /\
    Latest.printed_kept report <= Latest.printed_fetched report.
Proof.
  unfold Latest.main, mbind, PyExn.exn_bind, mret, PyExn.exn_ret.
  destruct (Latest.fetch_latest _ _) as [e|studies]; [discriminate|].
  destruct (Latest.filter_by_year _ _ _) as [e|filtered] eqn:Hf; [discriminate|].
  intros [= <-]. cbn. exists studies.
  pose proof (filter_by_year_stable _ _ _ _ Hf) as (Hsub & Hlen & Heq).
  split; [reflexivity|]. split; [exact Heq|]. split; [exact Hsub|].
  split; [reflexivity|]. split; [reflexivity|exact Hlen].
Qed.

Lemma main_dumps_a_selection_of_the_fetched_witness :
  let a := JObj [("id", JNum 1); ("created", JStr "Nov-13-2025")] in
  let b := JObj [("id", JNum 2); ("created", JStr "Dec-01-2024")] in
  let requests_get := fun (_ : string) (_ : Z) =>
    inr {| Unhcr.status_code := 200;
           Unhcr.body := Some (JObj [("result", JArr [a; b])]) |}
    : Unhcr.exn + Unhcr.Response in
  let args := {| Latest.limit := 500; Latest.year := 2025; Latest.output := None |} in
  let report := {| Latest.path := "data/unhcr/latest_2025.json";
                   Latest.dumped := [a];
                   Latest.printed_fetched := 2;
                   Latest.printed_kept := 1;
                   Latest.printed_year := 2025 |} in
  Latest.main requests_get (fun _ => "") args = inr report /\
  exists studies,
    Latest.fetch_latest requests_get 500 = inr studies /\
    [a] `sublist_of` studies.
Proof.
  cbv zeta.
  assert (H : Latest.main
    (fun _ _ => inr {| Unhcr.status_code := 200;
       Unhcr.body := Some (JObj [("result",
         JArr [ JObj [("id", JNum 1); ("created", JStr "Nov-13-2025")];
                JObj [("id", JNum 2); ("created", JStr "Dec-01-2024")] ])]) |})
    (fun _ => "")
    {| Latest.limit := 500; Latest.year := 2025; Latest.output := None |} =
    inr {| Latest.path := "data/unhcr/latest_2025.json";
           Latest.dumped := [JObj [("id", JNum 1); ("created", JStr "Nov-13-2025")]];
           Latest.printed_fetched := 2;
           Latest.printed_kept := 1;
           Latest.printed_year := 2025 |}).
  { vm_compute. reflexivity. }
  split; [exact H|].
  destruct (main_dumps_a_selection_of_the_fetched _ _ _ _ H)
    as (studies & Hfetch & _ & Hsub & _).
  exists studies. split; [exact Hfetch|exact Hsub].
Defined.
